(** * Admin console: session gate, list caches, moderation, filter, export

    A shallow embedding of the data-synchronisation core of the admin
    console (src/App.jsx, src/pages/AllClients.jsx with the Header
    component, src/pages/BuilderVerification.jsx with the AllProperty
    component) and the properties of it that the specification states.

    JavaScript values are a small inductive type; React component state
    is a record; an [async] handler is split at its [await] into the part
    that runs when the handler is invoked and the part that runs when the
    promise settles, with the variables of the render it closed over
    carried in between. *)

From Stdlib Require Import ZArith List Bool Ascii String Lia.
From stdpp Require Import base option list strings gmap pretty.
Import ListNotations.

Set Warnings "-register-all".

Local Open Scope string_scope.
Local Open Scope Z_scope.

(* ===================================================================== *)
(** ** JavaScript values *)
(* ===================================================================== *)

Module JS.

(** Numbers are the integers among the JS numbers (ids, HTTP statuses,
    lengths), written in decimal; there is no NaN and no fraction.
    Objects are association lists read at their first binding of a key.
    Strings are byte strings. *)
Inductive jsval : Type :=
| JUndefined
| JNull
| JBool (b : bool)
| JNum (n : Z)
| JStr (s : string)
| JArr (elems : list jsval)
| JObj (props : list (string * jsval)).

(** ToBoolean: [undefined], [null], [false], [0] and the empty string are
    falsy. *)
Definition truthy (v : jsval) : bool :=
  match v with
  | JUndefined | JNull => false
  | JBool b => b
  | JNum n => negb (n =? 0)
  | JStr s => negb (String.eqb s "")
  | JArr _ | JObj _ => true
  end.

(** [a || b] *)
Definition or_else (a b : jsval) : jsval := if truthy a then a else b.

Definition nullish (v : jsval) : bool :=
  match v with JUndefined | JNull => true | _ => false end.

Fixpoint assoc (k : string) (ps : list (string * jsval)) : jsval :=
  match ps with
  | [] => JUndefined
  | (k', v) :: ps' => if String.eqb k k' then v else assoc k ps'
  end.

(** [v.k] for the property names the program uses (none is an array
    index): a TypeError, here [None], on [undefined] and [null]; an own
    property of an object; [length] of a string or an array; otherwise
    [undefined]. *)
Definition get (v : jsval) (k : string) : option jsval :=
  match v with
  | JUndefined | JNull => None
  | JObj ps => Some (assoc k ps)
  | JArr l => Some (if String.eqb k "length" then JNum (Z.of_nat (List.length l)) else JUndefined)
  | JStr s => Some (if String.eqb k "length" then JNum (Z.of_nat (String.length s)) else JUndefined)
  | JBool _ | JNum _ => Some JUndefined
  end.

(** [v?.k] *)
Definition opt_get (v : jsval) (k : string) : jsval :=
  match get v k with
  | Some x => x
  | None => JUndefined
  end.

(** [a === b] on primitives. Object identity is not tracked: an array or
    an object is strictly equal to nothing here (ids, statuses and
    filter keys are primitives). *)
Definition strict_eq (a b : jsval) : bool :=
  match a, b with
  | JUndefined, JUndefined => true
  | JNull, JNull => true
  | JBool x, JBool y => Bool.eqb x y
  | JNum x, JNum y => x =? y
  | JStr x, JStr y => String.eqb x y
  | _, _ => false
  end.

(** [Array.prototype.join] on strings. *)
Fixpoint join (sep : string) (l : list string) : string :=
  match l with
  | [] => ""
  | [x] => x
  | x :: rest => x +:+ sep +:+ join sep rest
  end.

(** [String(v)], also the conversion of a template literal. *)
Fixpoint toStr (v : jsval) : string :=
  match v with
  | JUndefined => "undefined"
  | JNull => "null"
  | JBool true => "true"
  | JBool false => "false"
  | JNum n => pretty n
  | JStr s => s
  | JArr l =>
      join "," (List.map (fun e => match e with
                                   | JUndefined | JNull => ""
                                   | _ => toStr e
                                   end) l)
  | JObj _ => "[object Object]"
  end.

Fixpoint startsWith (s p : string) {struct p} : bool :=
  match p, s with
  | EmptyString, _ => true
  | String _ _, EmptyString => false
  | String a p', String b s' => Ascii.eqb a b && startsWith s' p'
  end.

(** [String.prototype.includes] *)
Fixpoint includes (s q : string) : bool :=
  startsWith s q ||
  match s with
  | EmptyString => false
  | String _ s' => includes s' q
  end.

End JS.

Import JS.

(* ===================================================================== *)
(** ** Persisted session: [localStorage] *)
(* ===================================================================== *)

Module Storage.

(** The keys the console persists: [adminToken] (the credential) and
    [adminInfo] (the serialised profile), next to [adminName] and
    [adminRole]. *)
Abbreviation localStorage := (gmap string string).

(** [localStorage.getItem(k)]: the stored string, or [null]. *)
Definition getItem (ls : localStorage) (k : string) : jsval :=
  match ls !! k with
  | Some s => JStr s
  | None => JNull
  end.

(** [localStorage.removeItem(k)] *)
Definition removeItem (k : string) (ls : localStorage) : localStorage :=
  delete k ls.

Definition has_token (ls : localStorage) : bool := truthy (getItem ls "adminToken").
Definition has_profile (ls : localStorage) : bool := truthy (getItem ls "adminInfo").

End Storage.

Import Storage.

(* ===================================================================== *)
(** ** src/App.jsx: the route guard *)
(* ===================================================================== *)

Module App.

(** What a route renders: a redirect or the page it wraps. *)
Inductive element : Type :=
| Navigate (to : string)
| Children.

Section Guard.

(** [JSON.parse]; [None] is a thrown SyntaxError. *)
Variable JSON_parse : string -> option jsval.

Definition getStoredAdminInfo (ls : localStorage) : jsval :=
  match getItem ls "adminInfo" with
  | JStr stored =>
      if truthy (JStr stored)
      then match JSON_parse stored with
           | Some v => v
           | None => JNull
           end
      else JNull
  | _ => JNull
  end.

Definition ProtectedRoute (ls : localStorage) (allowEnvAgent : bool) : element :=
  let token := getItem ls "adminToken" in
  if negb (truthy token) then Navigate "/admin/login"
  else
    let adminInfo := getStoredAdminInfo ls in
    if truthy (opt_get adminInfo "isEnvAgent") && negb allowEnvAgent
    then Navigate "/add-property"
    else Children.

(** A route of the [Routes] table: the login page is mounted bare, every
    other page inside [ProtectedRoute]. *)
Inductive route : Type :=
| Bare
| Protected (allowEnvAgent : bool).

Definition routes : list (string * route) :=
  [ ("/admin/login", Bare);
    ("/dashboard", Protected false);
    ("/add-property", Protected true);
    ("/lead-monitoring", Protected true);
    ("/add-category", Protected false);
    ("/add-subcategory", Protected false);
    ("/all-owners", Protected false);
    ("/owners-projects", Protected false);
    ("/all-clients", Protected false);
    ("/all-properties", Protected false);
    ("/all-category", Protected false);
    ("/contact-inquiries", Protected false) ].

Definition render_route (ls : localStorage) (r : route) : element :=
  match r with
  | Bare => Children
  | Protected allow => ProtectedRoute ls allow
  end.

(** The profile in storage is that of a restricted agent. *)
Definition restricted_agent (ls : localStorage) : bool :=
  truthy (opt_get (getStoredAdminInfo ls) "isEnvAgent").

End Guard.

(** The decision table of the specification, section 4.2, in its words. *)
Record RoutePolicy : Type := {
  requiresSession : bool;
  allowRestrictedAgent : bool
}.

Inductive Decision : Type := Render | RedirectToLogin | RedirectToRestrictedHome.

Definition decide_table (p : RoutePolicy) (sessionPresent restricted : bool) : Decision :=
  if negb sessionPresent && requiresSession p then RedirectToLogin
  else if sessionPresent && requiresSession p && restricted
          && negb (allowRestrictedAgent p)
  then RedirectToRestrictedHome
  else Render.

Definition route_of_policy (p : RoutePolicy) : route :=
  if requiresSession p then Protected (allowRestrictedAgent p) else Bare.

Definition element_of (d : Decision) : element :=
  match d with
  | Render => Children
  | RedirectToLogin => Navigate "/admin/login"
  | RedirectToRestrictedHome => Navigate "/add-property"
  end.

(** *** Navigation: the [Routes] table and its redirects *)

Section Router.

Variable JSON_parse : string -> option jsval.

(** The router's test of a route path against a location. *)
Variable matches : string -> string -> bool.

(** The route of the table that a location selects, if any. *)
Definition find_route (location : string) : option route :=
  snd <$> List.find (fun entry => matches (fst entry) location) routes.

(** What is rendered at a location: the selected route's element, or the
    catch-all route's redirect to the dashboard. *)
Definition render_at (ls : localStorage) (location : string) : element :=
  match find_route location with
  | Some r => render_route JSON_parse ls r
  | None => Navigate "/dashboard"
  end.

(** Following redirects from a location, at most [hops] times, to the
    location whose page is rendered. *)
Fixpoint land (hops : nat) (ls : localStorage) (location : string) : option string :=
  match render_at ls location with
  | Children => Some location
  | Navigate to =>
      match hops with
      | O => None
      | S hops' => land hops' ls to
      end
  end.

End Router.

End App.

(* ===================================================================== *)
(** ** The remote service, as the pages see it *)
(* ===================================================================== *)

Module Net.

Inductive method : Type := GET | PUT | DELETE.

(** A request handed to axios: method, URL, and the [Authorization]
    header when the call sets one. *)
Record request : Type := {
  req_method : method;
  req_url : string;
  req_authorization : option string
}.

(** What a [catch] block receives: [response] is [undefined] when no
    response came (transport error, or an exception thrown inside the
    [try] block). *)
Record js_error : Type := {
  err_response : jsval;
  err_message : jsval
}.

(** How an awaited request settles. *)
Inductive settled : Type :=
| Fulfilled (data : jsval)
| Rejected (e : js_error).

Inductive toast : Type :=
| ToastError (m : jsval)
| ToastSuccess (m : jsval)
| ToastInfo (m : jsval).

(** [err.response?.status === 401] *)
Definition status_is_401 (e : js_error) : bool :=
  strict_eq (opt_get (err_response e) "status") (JNum 401).

(** [err.response?.data?.message] *)
Definition response_message (e : js_error) : jsval :=
  opt_get (opt_get (err_response e) "data") "message".

End Net.

Import Net.

(* ===================================================================== *)
(** ** src/pages/AllClients.jsx *)
(* ===================================================================== *)

Module AllClients.

(** A row of the client list, as [fetchUsers] builds it. *)
Record user : Type := mkUser {
  id : jsval;
  name : jsval;
  email : jsval;
  phone : jsval;
  alternatePhone : jsval;
  address : jsval;
  role : jsval;
  status : jsval;
  joinedAt : jsval;
  gender : jsval;
  dateOfBirth : jsval;
  bio : jsval;
  preferences : jsval;
  profileImage : jsval
}.

(** [{ ...u, status: s }] *)
Definition with_status (u : user) (s : jsval) : user :=
  mkUser (id u) (name u) (email u) (phone u) (alternatePhone u) (address u)
         (role u) s (joinedAt u) (gender u) (dateOfBirth u) (bio u)
         (preferences u) (profileImage u).

(** [{ ...null, status: s }]: the only own property is [status]. *)
Definition only_status (s : jsval) : user :=
  mkUser JUndefined JUndefined JUndefined JUndefined JUndefined JUndefined
         JUndefined s JUndefined JUndefined JUndefined JUndefined
         JUndefined JUndefined.

(** The component: its [useState] cells and the memoised [token], with
    the world it acts on (storage, requests sent, toasts shown). *)
Record world : Type := mkWorld {
  token : jsval;
  users : list user;
  loading : bool;
  search : string;
  statusFilter : string;
  selectedUser : option user;
  drawerOpen : bool;
  activeTab : string;
  storage : localStorage;
  network : list request;
  toasts : list toast
}.

Definition setUsers (f : list user -> list user) (w : world) : world :=
  mkWorld (token w) (f (users w)) (loading w) (search w) (statusFilter w)
          (selectedUser w) (drawerOpen w) (activeTab w) (storage w)
          (network w) (toasts w).

Definition setLoading (b : bool) (w : world) : world :=
  mkWorld (token w) (users w) b (search w) (statusFilter w)
          (selectedUser w) (drawerOpen w) (activeTab w) (storage w)
          (network w) (toasts w).

Definition setSelectedUser (f : option user -> option user) (w : world) : world :=
  mkWorld (token w) (users w) (loading w) (search w) (statusFilter w)
          (f (selectedUser w)) (drawerOpen w) (activeTab w) (storage w)
          (network w) (toasts w).

Definition setDrawerOpen (b : bool) (w : world) : world :=
  mkWorld (token w) (users w) (loading w) (search w) (statusFilter w)
          (selectedUser w) b (activeTab w) (storage w)
          (network w) (toasts w).

Definition setActiveTab (t : string) (w : world) : world :=
  mkWorld (token w) (users w) (loading w) (search w) (statusFilter w)
          (selectedUser w) (drawerOpen w) t (storage w)
          (network w) (toasts w).

Definition setStorage (f : localStorage -> localStorage) (w : world) : world :=
  mkWorld (token w) (users w) (loading w) (search w) (statusFilter w)
          (selectedUser w) (drawerOpen w) (activeTab w) (f (storage w))
          (network w) (toasts w).

(** An axios call leaves the page. *)
Definition send (r : request) (w : world) : world :=
  mkWorld (token w) (users w) (loading w) (search w) (statusFilter w)
          (selectedUser w) (drawerOpen w) (activeTab w) (storage w)
          (network w ++ [r]) (toasts w).

Definition notify (t : toast) (w : world) : world :=
  mkWorld (token w) (users w) (loading w) (search w) (statusFilter w)
          (selectedUser w) (drawerOpen w) (activeTab w) (storage w)
          (network w) (toasts w ++ [t]).

(** The component mounts: state cells at their initial values, [token]
    read once from storage. *)
Definition mount (ls : localStorage) : world :=
  mkWorld (getItem ls "adminToken") [] true "" "All" None false "profile"
          ls [] [].

(** A handler suspended at its [await], with what it closed over. *)
Inductive task : Type :=
| FetchUsers
| ToggleBlock (userId : jsval) (selectedUser_seen : option user).

(** [openDrawer] *)
Definition openDrawer (u : user) (w : world) : world :=
  setActiveTab "profile" (setDrawerOpen true (setSelectedUser (fun _ => Some u) w)).

Section Handlers.

(** [import.meta.env.VITE_API_BASE_URL] *)
Variable API_URL : jsval.

(** [new Date(d).toLocaleDateString('en-GB')]; [None] if it throws. *)
Variable toLocaleDateString : jsval -> option string.

(** The message of a TypeError raised by the engine. *)
Variable type_error_message : string.

Definition TypeError : js_error :=
  {| err_response := JUndefined; err_message := JStr type_error_message |}.

Definition formatDate (dateString : jsval) : jsval :=
  if negb (truthy dateString) then JStr "N/A"
  else match toLocaleDateString dateString with
       | Some s => JStr s
       | None => JStr "Invalid Date"
       end.

(** The arrow function [fetchUsers] maps over [data.users]; [None] is
    the TypeError of reading a property of [null] or [undefined]. *)
Definition user_of_response (u : jsval) : option user :=
  u_id ← get u "id";
  u_name ← get u "name";
  u_email ← get u "email";
  u_phone ← get u "phone";
  u_alternatePhone ← get u "alternatePhone";
  u_address ← get u "address";
  u_role ← get u "role";
  u_isBlocked ← get u "isBlocked";
  u_createdAt ← get u "createdAt";
  u_gender ← get u "gender";
  u_dateOfBirth ← get u "dateOfBirth";
  u_bio ← get u "bio";
  u_preferences ← get u "preferences";
  u_profileImage ← get u "profileImage";
  Some (mkUser u_id u_name u_email u_phone u_alternatePhone u_address u_role
               (if truthy u_isBlocked then JStr "Blocked" else JStr "Active")
               (formatDate u_createdAt)
               u_gender u_dateOfBirth u_bio u_preferences u_profileImage).

(** [data.users.map(...)]; [None] when [data] has no [users] array or an
    element is [null]. *)
Definition users_of_response (data : jsval) : option (list user) :=
  us ← get data "users";
  match us with
  | JArr l => mapM user_of_response l
  | _ => None
  end.

(** [fetchUsers], up to its [await]. *)
Definition fetchUsers (w : world) : world * option task :=
  if negb (truthy (token w)) then
    (notify (ToastError (JStr "Authentication token missing. Please log in."))
          (setLoading false w), None)
  else
    (send {| req_method := GET;
             req_url := toStr API_URL +:+ "/api/users/list?role=user";
             req_authorization := Some ("Bearer " +:+ toStr (token w)) |}
          (setLoading true w),
     Some FetchUsers).

Definition fetchUsers_catch (error : js_error) (w : world) : world :=
  let w := setLoading false w in
  if status_is_401 error then
    setStorage (removeItem "adminToken")
      (notify (ToastError (JStr "Session expired or invalid token. Please log in again.")) w)
  else
    notify (ToastError (JStr ("Failed to fetch users: " +:+
            toStr (or_else (or_else (response_message error) (err_message error))
                           (JStr "Server Error"))))) w.

(** [fetchUsers], from its [await] on. *)
Definition fetchUsers_settle (o : settled) (w : world) : world :=
  match o with
  | Fulfilled data =>
      match users_of_response data with
      | Some us => setLoading false (setUsers (fun _ => us) w)
      | None => fetchUsers_catch TypeError w
      end
  | Rejected error => fetchUsers_catch error w
  end.

(** [toggleBlock], up to its [await]. *)
Definition toggleBlock (userId : jsval) (w : world) : world * option task :=
  if negb (truthy userId) then
    (notify (ToastError (JStr "User ID is missing. Cannot perform action.")) w, None)
  else if negb (truthy (token w)) then
    (notify (ToastError (JStr "Not authenticated for this action.")) w, None)
  else
    (send {| req_method := PUT;
             req_url := toStr API_URL +:+ "/api/users/block/" +:+ toStr userId;
             req_authorization := Some ("Bearer " +:+ toStr (token w)) |} w,
     Some (ToggleBlock userId (selectedUser w))).

Definition toggleBlock_catch (err : js_error) (w : world) : world :=
  notify (ToastError (or_else (response_message err)
                            (JStr "Action failed. Check console for details."))) w.

(** [newStatus] *)
Definition status_of_reply (data : jsval) : jsval :=
  if truthy (opt_get data "isBlocked") then JStr "Blocked" else JStr "Active".

(** [prevUsers.map(u => u.id === userId ? { ...u, status: newStatus } : u)] *)
Definition patch_users (userId newStatus : jsval) (prevUsers : list user) : list user :=
  List.map (fun u => if strict_eq (id u) userId then with_status u newStatus else u)
           prevUsers.

(** [prev => ({ ...prev, status: newStatus })] *)
Definition patch_selected (newStatus : jsval) (prev : option user) : option user :=
  match prev with
  | Some p => Some (with_status p newStatus)
  | None => Some (only_status newStatus)
  end.

(** [toggleBlock], from its [await] on. [selectedUser_seen] is the
    [selectedUser] of the render whose handler was invoked; the updater
    functions receive the state current when they run. *)
Definition toggleBlock_settle (userId : jsval) (selectedUser_seen : option user)
    (o : settled) (w : world) : world :=
  match o with
  | Fulfilled data =>
      match get data "message" with
      | None => toggleBlock_catch TypeError w
      | Some message =>
          let w := notify (ToastSuccess message) w in
          let newStatus := status_of_reply data in
          let w := setUsers (patch_users userId newStatus) w in
          match selectedUser_seen with
          | Some sel =>
              if strict_eq (id sel) userId
              then setSelectedUser (patch_selected newStatus) w
              else w
          | None => w
          end
      end
  | Rejected err => toggleBlock_catch err w
  end.

Definition settle (t : task) (o : settled) (w : world) : world :=
  match t with
  | FetchUsers => fetchUsers_settle o w
  | ToggleBlock userId sel => toggleBlock_settle userId sel o w
  end.

(** The page over time: the component and the handlers suspended at an
    [await], oldest first. Requests settle in any order. *)
Record page : Type := {
  now : world;
  inflight : list task
}.

Inductive event : Type :=
| Click_block (userId : jsval)        (* a row's Block / Unblock button *)
| Click_drawer_block                  (* the drawer's Block / Unblock button *)
| Click_view (u : user)               (* a row's View button *)
| Click_backdrop                      (* closes the drawer *)
| Click_refresh
| Settles (n : nat) (o : settled).    (* the n-th suspended handler resumes *)

Definition started (r : world * option task) (p : page) : page :=
  {| now := fst r;
     inflight := inflight p ++ match snd r with Some t => [t] | None => [] end |}.

Definition step (p : page) (e : event) : page :=
  match e with
  | Click_block userId => started (toggleBlock userId (now p)) p
  | Click_drawer_block =>
      match selectedUser (now p) with
      | Some sel =>
          if drawerOpen (now p) && truthy (id sel)
          then started (toggleBlock (id sel) (now p)) p
          else p
      | None => p
      end
  | Click_view u => {| now := openDrawer u (now p); inflight := inflight p |}
  | Click_backdrop => {| now := setDrawerOpen false (now p); inflight := inflight p |}
  | Click_refresh =>
      if loading (now p) then p else started (fetchUsers (now p)) p
  | Settles n o =>
      match inflight p !! n with
      | Some t => {| now := settle t o (now p); inflight := delete n (inflight p) |}
      | None => p
      end
  end.

Definition run (p : page) (es : list event) : page := fold_left step es p.

(** Mounting runs the effect that calls [fetchUsers]. *)
Definition mounted (ls : localStorage) : page :=
  started (fetchUsers (mount ls)) {| now := mount ls; inflight := [] |}.

End Handlers.

(** The text a row is searched in. *)
Definition search_text (u : user) : string :=
  toStr (name u) +:+ " " +:+ toStr (email u) +:+ " " +:+ toStr (phone u)
    +:+ " " +:+ toStr (role u).

Section View.

(** [String.prototype.toLowerCase], the engine's lower-casing of a
    string (Unicode-aware, not a function of single characters). *)
Variable toLowerCase : string -> string.

(** The callback of [users.filter] in [filtered]. *)
Definition keep (search statusFilter : string) (u : user) : bool :=
  let q := toLowerCase search in
  if truthy (JStr q) && negb (includes (toLowerCase (search_text u)) q) then false
  else if negb (String.eqb statusFilter "All")
          && negb (strict_eq (status u) (JStr statusFilter)) then false
  else true.

Definition filtered (users : list user) (search statusFilter : string) : list user :=
  List.filter (keep search statusFilter) users.

(** The characters the export writes around and between cells. *)
Definition dquote : ascii := "034"%char.
Definition comma : ascii := ","%char.
Definition newline : ascii := "010"%char.
Definition carriage_return : ascii := "013"%char.

(** The global [replace] of [exportCSV]: every double quote is written
    twice. *)
Fixpoint escape_quotes (s : string) : string :=
  match s with
  | EmptyString => EmptyString
  | String c s' =>
      if Ascii.eqb c dquote
      then String dquote (String dquote (escape_quotes s'))
      else String c (escape_quotes s')
  end.

(** The template literal around a cell: quote, escaped text, quote. *)
Definition cell (c : jsval) : string :=
  String dquote (escape_quotes (toStr c) +:+ String dquote EmptyString).

Definition header : list jsval :=
  [ JStr "Name"; JStr "Email"; JStr "Phone"; JStr "Role"; JStr "Status";
    JStr "Joined Date"; JStr "Address Line 1"; JStr "City"; JStr "State";
    JStr "Pincode" ].

Definition export_row (u : user) : list jsval :=
  [ name u;
    email u;
    or_else (phone u) (JStr "N/A");
    role u;
    status u;
    joinedAt u;
    or_else (opt_get (address u) "line1") (JStr "");
    or_else (opt_get (address u) "city") (JStr "");
    or_else (opt_get (address u) "state") (JStr "");
    or_else (opt_get (address u) "pincode") (JStr "") ].

(** [rows] of [exportCSV], over the filtered list. *)
Definition rows (visible : list user) : list (list jsval) :=
  header :: List.map export_row visible.

(** [csv] of [exportCSV]. *)
Definition csv_of_rows (rs : list (list jsval)) : string :=
  join (String newline EmptyString)
       (List.map (fun r => join (String comma EmptyString) (List.map cell r)) rs).

Definition csv (visible : list user) : string := csv_of_rows (rows visible).

(** [exportCSV]: the file handed to the browser (name and text), and the
    toast. *)
Definition exportCSV (w : world) : world * (string * string) :=
  let text := csv (filtered (users w) (search w) (statusFilter w)) in
  (notify (ToastInfo (JStr "Exported user data to CSV.")) w,
   ("clients_export.csv", text)).

End View.

End AllClients.

(* ===================================================================== *)
(** ** The Header component: logout *)
(* ===================================================================== *)

Module Header.

(** [handleLogout]: four keys are removed, then the browser leaves for
    the login page. *)
Definition handleLogout (ls : localStorage) : localStorage :=
  removeItem "adminRole"
    (removeItem "adminInfo"
       (removeItem "adminName"
          (removeItem "adminToken" ls))).

(** The cells of the component: the name shown, the agent badge, the
    menu. *)
Record state : Type := {
  adminName : jsval;
  isEnvAgent : bool;
  menuOpen : bool
}.

(** [localStorage.getItem("adminName") || "Admin"] *)
Definition fallback_name (ls : localStorage) : jsval :=
  or_else (getItem ls "adminName") (JStr "Admin").

(** The state after the mount effect ran. [JSON_parse] answers [None]
    when [JSON.parse] throws; the [catch] branch then sets the name only,
    and the badge keeps its initial [false]. *)
Definition mounted (JSON_parse : string -> option jsval) (ls : localStorage) : state :=
  let parsed : option jsval :=
    match getItem ls "adminInfo" with
    | JStr storedRaw =>
        if truthy (JStr storedRaw) then JSON_parse storedRaw else Some JNull
    | _ => Some JNull
    end in
  match parsed with
  | Some storedInfo =>
      {| adminName := if truthy (opt_get storedInfo "name")
                      then opt_get storedInfo "name"
                      else fallback_name ls;
         isEnvAgent := truthy (opt_get storedInfo "isEnvAgent");
         menuOpen := false |}
  | None =>
      {| adminName := fallback_name ls; isEnvAgent := false; menuOpen := false |}
  end.

End Header.

(* ===================================================================== *)
(** ** src/pages/BuilderVerification.jsx: the owner list *)
(* ===================================================================== *)

Module BuilderVerification.

(** A row of the owner list, as [fetchOwners] builds it. *)
Record owner : Type := mkOwner {
  id : jsval;
  name : jsval;
  email : jsval;
  phone : jsval;
  alternatePhone : jsval;
  address : jsval;
  role : jsval;
  isBlocked : jsval;
  joinedAt : jsval;
  gender : jsval;
  dateOfBirth : jsval;
  bio : jsval;
  preferences : jsval;
  profileImage : jsval
}.

(** [{ ...u, isBlocked: b }] *)
Definition with_isBlocked (u : owner) (b : jsval) : owner :=
  mkOwner (id u) (name u) (email u) (phone u) (alternatePhone u) (address u)
          (role u) b (joinedAt u) (gender u) (dateOfBirth u) (bio u)
          (preferences u) (profileImage u).

Record world : Type := mkWorld {
  users : list owner;
  loading : bool;
  searchQuery : string;
  statusFilter : string;
  storage : localStorage;
  network : list request;
  toasts : list toast
}.

Definition setUsers (f : list owner -> list owner) (w : world) : world :=
  mkWorld (f (users w)) (loading w) (searchQuery w) (statusFilter w)
          (storage w) (network w) (toasts w).

Definition setLoading (b : bool) (w : world) : world :=
  mkWorld (users w) b (searchQuery w) (statusFilter w)
          (storage w) (network w) (toasts w).

Definition setStorage (f : localStorage -> localStorage) (w : world) : world :=
  mkWorld (users w) (loading w) (searchQuery w) (statusFilter w)
          (f (storage w)) (network w) (toasts w).

Definition send (r : request) (w : world) : world :=
  mkWorld (users w) (loading w) (searchQuery w) (statusFilter w)
          (storage w) (network w ++ [r]) (toasts w).

Definition notify (t : toast) (w : world) : world :=
  mkWorld (users w) (loading w) (searchQuery w) (statusFilter w)
          (storage w) (network w) (toasts w ++ [t]).

(** [StatusBadge]: the classes and the label of the badge. *)
Definition StatusBadge (isBlocked : jsval) : string * string :=
  if truthy isBlocked
  then ("bg-red-100 text-red-700 ring-red-300", "Blocked")
  else ("bg-emerald-100 text-emerald-700 ring-emerald-300", "Active").

(** The action button a row of the table shows: Block for a row that is
    not blocked, Unblock for one that is. *)
Definition action_buttons (u : owner) : list string :=
  (if negb (truthy (isBlocked u)) then ["Block"] else [])
  ++ (if truthy (isBlocked u) then ["Unblock"] else []).

Inductive task : Type :=
| FetchOwners
| ToggleBlock (userId : jsval).

Section Handlers.

Variable API_URL : jsval.

(** [new Date(d).toLocaleDateString()]; [None] if it throws. *)
Variable toLocaleDateString : jsval -> option string.

Variable type_error_message : string.

(** [token] of the render that created the handlers: what
    [localStorage.getItem] returned for [adminToken] in that render. *)
Variable token : jsval.

Definition TypeError : js_error :=
  {| err_response := JUndefined; err_message := JStr type_error_message |}.

Definition formatDate (dateString : jsval) : jsval :=
  if negb (truthy dateString) then JStr "N/A"
  else match toLocaleDateString dateString with
       | Some s => JStr s
       | None => JStr "Invalid Date"
       end.

Definition owner_of_response (u : jsval) : option owner :=
  u_id ← get u "id";
  u_name ← get u "name";
  u_email ← get u "email";
  u_phone ← get u "phone";
  u_alternatePhone ← get u "alternatePhone";
  u_address ← get u "address";
  u_role ← get u "role";
  u_isBlocked ← get u "isBlocked";
  u_createdAt ← get u "createdAt";
  u_gender ← get u "gender";
  u_dateOfBirth ← get u "dateOfBirth";
  u_bio ← get u "bio";
  u_preferences ← get u "preferences";
  u_profileImage ← get u "profileImage";
  Some (mkOwner u_id u_name u_email u_phone u_alternatePhone u_address u_role
                u_isBlocked (formatDate u_createdAt)
                u_gender u_dateOfBirth u_bio u_preferences u_profileImage).

Definition owners_of_response (data : jsval) : option (list owner) :=
  us ← get data "users";
  match us with
  | JArr l => mapM owner_of_response l
  | _ => None
  end.

(** [fetchOwners], up to its [await]. *)
Definition fetchOwners (w : world) : world * option task :=
  if negb (truthy token) then
    (notify (ToastError (JStr "Authentication token missing. Please log in."))
            (setLoading false w), None)
  else
    (send {| req_method := GET;
             req_url := toStr API_URL +:+ "/api/users/list?role=owner";
             req_authorization := Some ("Bearer " +:+ toStr token) |}
          (setLoading true w),
     Some FetchOwners).

(** [error.response && error.response.status === 401] *)
Definition session_expired (error : js_error) : bool :=
  truthy (err_response error)
  && strict_eq (opt_get (err_response error) "status") (JNum 401).

Definition fetchOwners_catch (error : js_error) (w : world) : world :=
  let w := setLoading false w in
  if session_expired error then
    setStorage (removeItem "adminToken")
      (notify (ToastError (JStr "Session expired or invalid token. Please log in again.")) w)
  else
    notify (ToastError (JStr ("Failed to fetch owners: " +:+
              toStr (or_else (response_message error) (JStr "Server Error"))))) w.

(** [fetchOwners], from its [await] on. *)
Definition fetchOwners_settle (o : settled) (w : world) : world :=
  match o with
  | Fulfilled data =>
      match owners_of_response data with
      | Some us =>
          notify (ToastSuccess (JStr ("Owner list synchronized! Total: " +:+
                    toStr (JNum (Z.of_nat (List.length us))))))
                 (setLoading false (setUsers (fun _ => us) w))
      | None => fetchOwners_catch TypeError w
      end
  | Rejected error => fetchOwners_catch error w
  end.

(** [toggleBlock], up to its [await]. *)
Definition toggleBlock (userId : jsval) (w : world) : world * option task :=
  if negb (truthy token) then
    (notify (ToastError (JStr "Not authenticated for this action.")) w, None)
  else
    (send {| req_method := PUT;
             req_url := toStr API_URL +:+ "/api/users/block/" +:+ toStr userId;
             req_authorization := Some ("Bearer " +:+ toStr token) |} w,
     Some (ToggleBlock userId)).

Definition toggleBlock_catch (err : js_error) (w : world) : world :=
  notify (ToastError (or_else (response_message err) (JStr "Action failed"))) w.

(** [prevUsers.map(u => u.id === userId ? { ...u, isBlocked: newIsBlocked } : u)] *)
Definition patch_users (userId newIsBlocked : jsval) (prevUsers : list owner) : list owner :=
  List.map (fun u => if strict_eq (id u) userId then with_isBlocked u newIsBlocked else u)
           prevUsers.

(** [toggleBlock], from its [await] on. *)
Definition toggleBlock_settle (userId : jsval) (o : settled) (w : world) : world :=
  match o with
  | Fulfilled data =>
      match get data "message" with
      | None => toggleBlock_catch TypeError w
      | Some message =>
          let w := notify (ToastSuccess message) w in
          let newIsBlocked := opt_get data "isBlocked" in
          setUsers (patch_users userId newIsBlocked) w
      end
  | Rejected err => toggleBlock_catch err w
  end.

End Handlers.

Definition search_text (u : owner) : string :=
  toStr (name u) +:+ " " +:+ toStr (email u) +:+ " " +:+ toStr (phone u)
    +:+ " " +:+ toStr (role u).

Section View.

(** [String.prototype.toLowerCase] *)
Variable toLowerCase : string -> string.

(** The callback of [users.filter] in [filteredOwners]. *)
Definition keep (searchQuery statusFilter : string) (u : owner) : bool :=
  if String.eqb statusFilter "active" && truthy (isBlocked u) then false
  else if String.eqb statusFilter "blocked" && negb (truthy (isBlocked u)) then false
  else if truthy (JStr searchQuery) then
    let query := toLowerCase searchQuery in
    let textToSearch := toLowerCase (search_text u) in
    includes textToSearch query
  else true.

Definition filteredOwners (users : list owner) (searchQuery statusFilter : string)
  : list owner :=
  List.filter (keep searchQuery statusFilter) users.

End View.

End BuilderVerification.

(* ===================================================================== *)
(** ** The AllProperty component: listings *)
(* ===================================================================== *)

Module AllProperty.

Record world : Type := mkWorld {
  properties : list jsval;
  loading : bool;
  storage : localStorage;
  network : list request;
  toasts : list toast
}.

Definition setProperties (f : list jsval -> list jsval) (w : world) : world :=
  mkWorld (f (properties w)) (loading w) (storage w) (network w) (toasts w).

Definition setLoading (b : bool) (w : world) : world :=
  mkWorld (properties w) b (storage w) (network w) (toasts w).

Definition send (r : request) (w : world) : world :=
  mkWorld (properties w) (loading w) (storage w) (network w ++ [r]) (toasts w).

Definition notify (t : toast) (w : world) : world :=
  mkWorld (properties w) (loading w) (storage w) (network w) (toasts w ++ [t]).

(** [Array.isArray(v)], with the elements when it holds. *)
Definition as_array (v : jsval) : option (list jsval) :=
  match v with
  | JArr l => Some l
  | _ => None
  end.

(** An exception-aware reading of [extractList]: [inl] is a returned
    array, [inr] a thrown TypeError. *)
Definition extractList (resData : jsval) : list jsval + unit :=
  if negb (truthy resData) then inl []
  else match as_array resData with
  | Some l => inl l
  | None =>
  match get resData "data" with
  | None => inr tt
  | Some d =>
  match as_array d with
  | Some l => inl l
  | None =>
  match get resData "properties" with
  | None => inr tt
  | Some p =>
  match as_array p with
  | Some l => inl l
  | None =>
  match as_array (opt_get (opt_get resData "success") "data") with
  | Some l => inl l
  | None =>
  match as_array (opt_get (opt_get resData "data") "data") with
  | Some l => inl l
  | None => inl []
  end end end end end end end.

Inductive task : Type :=
| FetchProperties
| HandleDelete (id : jsval)
| ToggleStatus (id : jsval) (status : jsval).

Section Handlers.

(** [import.meta.env.VITE_API_BASE_URL] *)
Variable VITE_API_BASE_URL : jsval.

Definition API_URL : jsval := or_else VITE_API_BASE_URL (JStr "http://localhost:9000").

(** [String.prototype.toLowerCase] *)
Variable toLowerCase : string -> string.

Definition placeholder_image : string :=
  "https://images.unsplash.com/photo-1560518883-cf3726f1454c?fit=crop&w=600&q=80".

(** [resolveImage]: [inl] is the returned value, [inr] the TypeError of
    calling [startsWith] on a value that is not a string. *)
Definition resolveImage (img : jsval) : jsval + unit :=
  if negb (truthy img) then inl (JStr placeholder_image)
  else
    let s := toLowerCase (toStr img) in
    if startsWith s "data:" || startsWith s "http" then inl img
    else match img with
         | JStr path =>
             if startsWith path "/uploads"
             then inl (JStr (toStr API_URL +:+ path))
             else inl (JStr (toStr API_URL +:+ "/uploads/" +:+ path))
         | _ => inr tt
         end.

(** [adminToken] of the render that created the handlers. *)
Variable adminToken : jsval.

(** [fetchProperties], up to its [await]. The request carries no
    [Authorization] header. *)
Definition fetchProperties (w : world) : world * option task :=
  (send {| req_method := GET;
           req_url := toStr API_URL +:+ "/api/properties/list";
           req_authorization := None |}
        (setLoading true w),
   Some FetchProperties).

(** [fetchProperties], from its [await] on. *)
Definition fetchProperties_settle (o : settled) (w : world) : world :=
  let w :=
    match o with
    | Fulfilled data =>
        match extractList data with
        | inl l => setProperties (fun _ => l) w
        | inr _ => notify (ToastError (JStr "Failed to fetch properties")) w
        end
    | Rejected _ => notify (ToastError (JStr "Failed to fetch properties")) w
    end in
  setLoading false w.

(** [handleDelete], up to its [await]; [confirmed] is the answer to
    [window.confirm]. *)
Definition handleDelete (confirmed : bool) (id : jsval) (w : world)
  : world * option task :=
  if negb confirmed then (w, None)
  else
    (send {| req_method := DELETE;
             req_url := toStr API_URL +:+ "/api/properties/delete/" +:+ toStr id;
             req_authorization := Some ("Bearer " +:+ toStr adminToken) |} w,
     Some (HandleDelete id)).

(** [prev.filter(p => p._id !== id)]; [None] when an element is [null]
    or [undefined] and the callback throws. *)
Fixpoint without (id : jsval) (prev : list jsval) : option (list jsval) :=
  match prev with
  | [] => Some []
  | p :: rest =>
      p_id ← get p "_id";
      rest' ← without id rest;
      Some (if negb (strict_eq p_id id) then p :: rest' else rest')
  end.

(** [handleDelete], from its [await] on; [None] when the state updater
    throws while the page renders. *)
Definition handleDelete_settle (id : jsval) (o : settled) (w : world) : option world :=
  match o with
  | Fulfilled _ =>
      let w := notify (ToastSuccess (JStr "Project Permanently Deleted/Rejected")) w in
      kept ← without id (properties w);
      Some (setProperties (fun _ => kept) w)
  | Rejected _ => Some (notify (ToastError (JStr "Deletion failed")) w)
  end.

(** [toggleStatus], up to its [await]. *)
Definition toggleStatus (id status : jsval) (w : world) : world * option task :=
  (send {| req_method := PUT;
           req_url := toStr API_URL +:+ "/api/properties/" +:+ toStr status
                        +:+ "/" +:+ toStr id;
           req_authorization := Some ("Bearer " +:+ toStr adminToken) |} w,
   Some (ToggleStatus id status)).

(** [toggleStatus], from its [await] on: on success the list is fetched
    again. *)
Definition toggleStatus_settle (status : jsval) (o : settled) (w : world)
  : world * option task :=
  match o with
  | Fulfilled _ =>
      fetchProperties
        (notify (ToastSuccess
                   (if strict_eq status (JStr "approve")
                    then JStr "Property Published Successfully!"
                    else JStr "Listing pulled down.")) w)
  | Rejected _ =>
      (notify (ToastError (JStr "Status update failed. Check network or server logs.")) w,
       None)
  end.

End Handlers.

(** The shapes the specification lists for a listing payload, in its
    words: a bare array, or an array at [.data], [.properties],
    [.success.data] or [.data.data]; the first position that holds an
    array is the payload, and when none does the list is empty. *)
Definition positions (v : jsval) : list jsval :=
  [ v;
    opt_get v "data";
    opt_get v "properties";
    opt_get (opt_get v "success") "data";
    opt_get (opt_get v "data") "data" ].

Fixpoint first_array (candidates : list jsval) : option (list jsval) :=
  match candidates with
  | [] => None
  | c :: rest =>
      match as_array c with
      | Some l => Some l
      | None => first_array rest
      end
  end.

Definition accepted_shape (v : jsval) : list jsval :=
  match first_array (positions v) with
  | Some l => l
  | None => []
  end.

End AllProperty.

(* ===================================================================== *)
(** ** A reader of delimited text *)
(* ===================================================================== *)

(** The reader against which the exported text is judged: the usual
    comma-separated format (RFC 4180). Records end at a line feed, a
    carriage return, or both; a field is either bare or enclosed in
    double quotes, and inside quotes a doubled quote stands for one quote
    while commas and line breaks are data. Blank lines are skipped. The
    reader fails on an unterminated quoted field and on text that follows
    a closing quote. *)
Module Csv.

Local Close Scope string_scope.

Definition dquote : ascii := AllClients.dquote.
Definition comma : ascii := AllClients.comma.
Definition newline : ascii := AllClients.newline.
Definition carriage_return : ascii := AllClients.carriage_return.

Inductive mode : Type :=
| RecordStart       (* at the start of a record *)
| AfterCR           (* a carriage return just ended a record *)
| FieldStart        (* after a comma *)
| Unquoted          (* inside a bare field *)
| Quoted            (* inside a quoted field *)
| QuoteInQuoted.    (* a quote was read inside a quoted field *)

Definition snoc (s : string) (c : ascii) : string := s +:+ String c EmptyString.

(** [field] is the text of the field being read, [record] the fields of
    the record being read, [done] the records already read. *)
Fixpoint read_from (m : mode) (field : string) (record : list string)
    (done : list (list string)) (s : string) : option (list (list string)) :=
  match s with
  | EmptyString =>
      match m with
      | RecordStart | AfterCR => Some done
      | FieldStart => Some (done ++ [record ++ [EmptyString]])
      | Unquoted | QuoteInQuoted => Some (done ++ [record ++ [field]])
      | Quoted => None
      end
  | String c rest =>
      match m with
      | RecordStart | AfterCR =>
          if Ascii.eqb c dquote then read_from Quoted EmptyString [] done rest
          else if Ascii.eqb c comma then read_from FieldStart EmptyString [EmptyString] done rest
          else if Ascii.eqb c newline then read_from RecordStart EmptyString [] done rest
          else if Ascii.eqb c carriage_return then read_from AfterCR EmptyString [] done rest
          else read_from Unquoted (String c EmptyString) [] done rest
      | FieldStart =>
          if Ascii.eqb c dquote then read_from Quoted EmptyString record done rest
          else if Ascii.eqb c comma
               then read_from FieldStart EmptyString (record ++ [EmptyString]) done rest
          else if Ascii.eqb c newline
               then read_from RecordStart EmptyString [] (done ++ [record ++ [EmptyString]]) rest
          else if Ascii.eqb c carriage_return
               then read_from AfterCR EmptyString [] (done ++ [record ++ [EmptyString]]) rest
          else read_from Unquoted (String c EmptyString) record done rest
      | Unquoted =>
          if Ascii.eqb c comma
          then read_from FieldStart EmptyString (record ++ [field]) done rest
          else if Ascii.eqb c newline
               then read_from RecordStart EmptyString [] (done ++ [record ++ [field]]) rest
          else if Ascii.eqb c carriage_return
               then read_from AfterCR EmptyString [] (done ++ [record ++ [field]]) rest
          else read_from Unquoted (snoc field c) record done rest
      | Quoted =>
          if Ascii.eqb c dquote then read_from QuoteInQuoted field record done rest
          else read_from Quoted (snoc field c) record done rest
      | QuoteInQuoted =>
          if Ascii.eqb c dquote then read_from Quoted (snoc field c) record done rest
          else if Ascii.eqb c comma
               then read_from FieldStart EmptyString (record ++ [field]) done rest
          else if Ascii.eqb c newline
               then read_from RecordStart EmptyString [] (done ++ [record ++ [field]]) rest
          else if Ascii.eqb c carriage_return
               then read_from AfterCR EmptyString [] (done ++ [record ++ [field]]) rest
          else None
      end
  end.

Definition read (s : string) : option (list (list string)) :=
  read_from RecordStart EmptyString [] [] s.

End Csv.

(* ===================================================================== *)
(** ** Vocabulary of the properties *)
(* ===================================================================== *)

Module Vocabulary.

(** [q] occurs in [text] as a contiguous run of characters. *)
Definition contains (text q : string) : Prop :=
  exists before after, text = before +:+ q +:+ after.

(** Two client rows that differ at most in [status]. *)
Definition same_client_but_status (u u' : AllClients.user) : Prop :=
  AllClients.id u' = AllClients.id u
  /\ AllClients.name u' = AllClients.name u
  /\ AllClients.email u' = AllClients.email u
  /\ AllClients.phone u' = AllClients.phone u
  /\ AllClients.alternatePhone u' = AllClients.alternatePhone u
  /\ AllClients.address u' = AllClients.address u
  /\ AllClients.role u' = AllClients.role u
  /\ AllClients.joinedAt u' = AllClients.joinedAt u
  /\ AllClients.gender u' = AllClients.gender u
  /\ AllClients.dateOfBirth u' = AllClients.dateOfBirth u
  /\ AllClients.bio u' = AllClients.bio u
  /\ AllClients.preferences u' = AllClients.preferences u
  /\ AllClients.profileImage u' = AllClients.profileImage u.

(** Two owner rows that differ at most in [isBlocked]. *)
Definition same_owner_but_isBlocked (u u' : BuilderVerification.owner) : Prop :=
  BuilderVerification.id u' = BuilderVerification.id u
  /\ BuilderVerification.name u' = BuilderVerification.name u
  /\ BuilderVerification.email u' = BuilderVerification.email u
  /\ BuilderVerification.phone u' = BuilderVerification.phone u
  /\ BuilderVerification.alternatePhone u' = BuilderVerification.alternatePhone u
  /\ BuilderVerification.address u' = BuilderVerification.address u
  /\ BuilderVerification.role u' = BuilderVerification.role u
  /\ BuilderVerification.joinedAt u' = BuilderVerification.joinedAt u
  /\ BuilderVerification.gender u' = BuilderVerification.gender u
  /\ BuilderVerification.dateOfBirth u' = BuilderVerification.dateOfBirth u
  /\ BuilderVerification.bio u' = BuilderVerification.bio u
  /\ BuilderVerification.preferences u' = BuilderVerification.preferences u
  /\ BuilderVerification.profileImage u' = BuilderVerification.profileImage u.

(** The status the service confirmed in its reply to a block request, as
    the client list shows it. *)
Definition confirmed_status (data : jsval) : jsval :=
  if truthy (opt_get data "isBlocked") then JStr "Blocked" else JStr "Active".

(** A successful block/unblock of [userId], confirmed by [data], took the
    client list from [before] to [after]: same length, and at every
    position the same row except that a row with the targeted id now
    carries the confirmed status. *)
Definition clients_patched (userId data : jsval)
    (before after : list AllClients.user) : Prop :=
  List.length after = List.length before
  /\ forall (i : nat) (u : AllClients.user),
       before !! i = Some u ->
       exists u', after !! i = Some u'
         /\ same_client_but_status u u'
         /\ AllClients.status u'
            = (if strict_eq (AllClients.id u) userId
               then confirmed_status data
               else AllClients.status u).

(** The same for the owner list, whose rows carry the reply's
    [isBlocked] itself. *)
Definition owners_patched (userId data : jsval)
    (before after : list BuilderVerification.owner) : Prop :=
  List.length after = List.length before
  /\ forall (i : nat) (u : BuilderVerification.owner),
       before !! i = Some u ->
       exists u', after !! i = Some u'
         /\ same_owner_but_isBlocked u u'
         /\ BuilderVerification.isBlocked u'
            = (if strict_eq (BuilderVerification.id u) userId
               then opt_get data "isBlocked"
               else BuilderVerification.isBlocked u).

(** The status predicates the two pages offer: the client list compares
    the row's status with the selected one unless All is selected; the
    owner list knows [active] and [blocked] and lets every row pass for
    any other selection. *)
Definition client_status_passes (statusFilter : string) (u : AllClients.user) : bool :=
  String.eqb statusFilter "All"
  || strict_eq (AllClients.status u) (JStr statusFilter).

Definition owner_status_passes (statusFilter : string)
    (u : BuilderVerification.owner) : bool :=
  if String.eqb statusFilter "active" then negb (truthy (BuilderVerification.isBlocked u))
  else if String.eqb statusFilter "blocked" then truthy (BuilderVerification.isBlocked u)
  else true.

(** The serialisation the specification asks of the block action on the
    client page: while a block request for an id is unresolved, another
    click for that id sends nothing and suspends no further handler. *)
Definition second_apply_rejected
    (API_URL : jsval) (toLocaleDateString : jsval -> option string)
    (type_error_message : string) : Prop :=
  forall (p : AllClients.page) (userId : jsval) (seen : option AllClients.user),
    In (AllClients.ToggleBlock userId seen) (AllClients.inflight p) ->
    let p' := AllClients.step API_URL toLocaleDateString type_error_message p
                (AllClients.Click_block userId) in
    AllClients.network (AllClients.now p') = AllClients.network (AllClients.now p)
    /\ AllClients.inflight p' = AllClients.inflight p.

(** The delimited text of records of plain strings, as the
    specification describes it: every field between double quotes with
    the quotes inside it doubled, fields joined by commas, records by
    line feeds. *)
Definition quoted (s : string) : string :=
  String AllClients.dquote
    (AllClients.escape_quotes s +:+ String AllClients.dquote "").

Definition line (cells : list string) : string :=
  join (String AllClients.comma "") (List.map quoted cells).

Definition text (records : list (list string)) : string :=
  join (String AllClients.newline "") (List.map line records).

(** The columns of the exported artifact, in the order the specification
    fixes. *)
Definition column_labels : list string :=
  [ "Name"; "Email"; "Phone"; "Role"; "Status"; "Joined Date";
    "Address Line 1"; "City"; "State"; "Pincode" ].

(** Text made of ASCII characters other than the capital letters: the
    characters that lower-casing leaves alone wherever they stand. *)
Definition plain_char (c : ascii) : bool :=
  let n := nat_of_ascii c in
  (n <? 128)%nat && negb ((65 <=? n)%nat && (n <=? 90)%nat).

Fixpoint plain_text (s : string) : bool :=
  match s with
  | EmptyString => true
  | String c s' => plain_char c && plain_text s'
  end.

(** A lower-casing function keeps plain text in place: inside any
    string, a run of plain text is found unchanged in the result, at the
    start (end) of the result if it stood at the start (end). *)
Definition keeps_plain_text (toLowerCase : string -> string) : Prop :=
  forall before s after,
    plain_text s = true ->
    exists before' after',
      toLowerCase (before +:+ s +:+ after) = before' +:+ s +:+ after'
      /\ (before = "" -> before' = "")
      /\ (after = "" -> after' = "").

(** The request a block action sends. *)
Definition block_request (API_URL token userId : jsval) : request :=
  {| req_method := PUT;
     req_url := toStr API_URL +:+ "/api/users/block/" +:+ toStr userId;
     req_authorization := Some ("Bearer " +:+ toStr token) |}.

End Vocabulary.

(* ===================================================================== *)
(** ** Concrete pages for the examples *)
(* ===================================================================== *)

Module Samples.
Import Vocabulary.

Definition api : jsval := JStr "https://api.example".
Definition dates (_ : jsval) : option string := Some "01/02/2025".
Definition engine_message : string := "Cannot read properties of undefined".

(** Two readings of the stored profile: a full administrator and a
    restricted agent. *)
Definition parse_admin (_ : string) : option jsval :=
  Some (JObj [("name", JStr "Root"); ("isEnvAgent", JBool false)]).
Definition parse_agent (_ : string) : option jsval :=
  Some (JObj [("name", JStr "Field agent"); ("isEnvAgent", JBool true)]).
Definition parse_fails (_ : string) : option jsval := None.

(** A lower-casing function for the examples: the letters A to Z are
    lower-cased, every other byte is kept. *)
Definition lower_byte (c : ascii) : ascii :=
  let n := nat_of_ascii c in
  if (65 <=? n)%nat && (n <=? 90)%nat then ascii_of_nat (n + 32) else c.

Fixpoint lower (s : string) : string :=
  match s with
  | EmptyString => EmptyString
  | String c s' => String (lower_byte c) (lower s')
  end.

(** A stored session: a token and a serialised profile. *)
Definition session : localStorage :=
  <["adminToken" := "tok"]> (<["adminInfo" := "profile"]> ∅).

Definition raw_alice : jsval :=
  JObj [("id", JStr "u1"); ("name", JStr "Alice"); ("email", JStr "alice@example.com");
        ("phone", JStr "111"); ("role", JStr "user"); ("isBlocked", JBool false)].

Definition raw_bob : jsval :=
  JObj [("id", JStr "u2"); ("name", JStr "Bob"); ("email", JStr "bob@example.com");
        ("phone", JStr "222"); ("role", JStr "user"); ("isBlocked", JBool false)].

Definition list_reply : jsval := JObj [("users", JArr [raw_alice; raw_bob])].

Definition alice : AllClients.user :=
  AllClients.mkUser (JStr "u1") (JStr "Alice") (JStr "alice@example.com")
    (JStr "111") JUndefined JUndefined (JStr "user") (JStr "Active") (JStr "N/A")
    JUndefined JUndefined JUndefined JUndefined JUndefined.

Definition bob : AllClients.user :=
  AllClients.mkUser (JStr "u2") (JStr "Bob") (JStr "bob@example.com")
    (JStr "222") JUndefined JUndefined (JStr "user") (JStr "Active") (JStr "N/A")
    JUndefined JUndefined JUndefined JUndefined JUndefined.

Definition owner_alice : BuilderVerification.owner :=
  BuilderVerification.mkOwner (JStr "u1") (JStr "Alice") (JStr "alice@example.com")
    (JStr "111") JUndefined JUndefined (JStr "owner") (JBool false) (JStr "N/A")
    JUndefined JUndefined JUndefined JUndefined JUndefined.

(** The service's answer to a block request: the account is now blocked. *)
Definition blocked_reply : jsval :=
  JObj [("message", JStr "User blocked successfully"); ("isBlocked", JBool true)].

(** A rejection with HTTP status 401. *)
Definition unauthorized : js_error :=
  {| err_response := JObj [("status", JNum 401);
                           ("data", JObj [("message", JStr "Invalid token")])];
     err_message := JStr "Request failed with status code 401" |}.

(** The client page after it mounted with [session] and its first fetch
    was answered with [list_reply]. *)
Definition loaded : AllClients.page :=
  AllClients.run api dates engine_message
    (AllClients.mounted api session)
    [AllClients.Settles 0 (Fulfilled list_reply)].

(** The loaded client page after one click on Alice's Block button. *)
Definition blocking_alice : AllClients.page :=
  AllClients.step api dates engine_message loaded (AllClients.Click_block (JStr "u1")).

Definition owners_world : BuilderVerification.world :=
  BuilderVerification.mkWorld [owner_alice] false "" "all" session [] [].

Definition listings_world : AllProperty.world :=
  AllProperty.mkWorld [] false ∅ [] [].

End Samples.

(* ===================================================================== *)
(** ** Properties: the route guard *)
(* ===================================================================== *)

Module AppProperties.
Import App.

(** C6. The guard is a function of the stored session and the route's
    policy alone, and it agrees with the decision table on every
    combination of session present or not, session required or not,
    restricted agents allowed or not, restricted or unrestricted profile:
    a route that requires a session is mounted inside [ProtectedRoute],
    which redirects to the login page without a token, redirects a
    restricted agent to its landing page where such agents are not
    allowed, and renders the page otherwise; the login route is mounted
    bare and always renders. *)
Theorem route_guard_matches_table
    (JSON_parse : string -> option jsval) (ls : localStorage) (p : RoutePolicy) :
  render_route JSON_parse ls (route_of_policy p)
    = element_of (decide_table p (has_token ls) (restricted_agent JSON_parse ls))
  /\ ProtectedRoute JSON_parse ls (allowRestrictedAgent p)
    = (if negb (has_token ls) then Navigate "/admin/login"
       else if restricted_agent JSON_parse ls && negb (allowRestrictedAgent p)
            then Navigate "/add-property"
            else Children).
Proof.
  split; [| reflexivity].
  destruct p as [req allow]; unfold route_of_policy, decide_table; simpl.
  destruct req; simpl.
  - unfold ProtectedRoute, has_token, restricted_agent.
    destruct (truthy (getItem ls "adminToken")); simpl; [| reflexivity].
    destruct (truthy (opt_get (getStoredAdminInfo JSON_parse ls) "isEnvAgent"));
      destruct allow; reflexivity.
  - rewrite andb_false_r. destruct (has_token ls); reflexivity.
Qed.

(** Every route of the table other than the login page is guarded. *)
Lemma routes_guarded path r :
  In (path, r) routes -> r = Bare -> path = "/admin/login".
Proof.
  unfold routes; simpl; intros H Hr; subst r.
  repeat (destruct H as [H | H]; [inversion H; subst; try reflexivity |]);
    contradiction.
Qed.

Example agent_sent_home :
  App.ProtectedRoute Samples.parse_agent Samples.session false = Navigate "/add-property"
  /\ App.ProtectedRoute Samples.parse_agent Samples.session true = Children
  /\ App.ProtectedRoute Samples.parse_admin Samples.session false = Children
  /\ App.ProtectedRoute Samples.parse_fails Samples.session false = Children
  /\ App.ProtectedRoute Samples.parse_agent ∅ true = Navigate "/admin/login".
Proof. vm_compute. repeat split; reflexivity. Qed.

End AppProperties.

(* ===================================================================== *)
(** ** Properties: the listing payload *)
(* ===================================================================== *)

Module AllPropertyProperties.
Import AllProperty.

Lemma falsy_not_array v : truthy v = false -> as_array v = None.
Proof. destruct v; simpl; congruence. Qed.

Lemma falsy_positions v : truthy v = false -> first_array (positions v) = None.
Proof.
  destruct v as [| | b | n | s | l | ps]; simpl; try reflexivity; discriminate.
Qed.

(** C9. [extractList] never throws, and returns the array found at the
    first of the five accepted positions (the value itself, [.data],
    [.properties], [.success.data], [.data.data]), unchanged; when none
    of them holds an array, in particular for [null] and [undefined], it
    returns the empty list. *)
Theorem extractList_accepted_shapes (resData : jsval) :
  extractList resData = inl (accepted_shape resData).
Proof.
  unfold extractList, accepted_shape.
  destruct (truthy resData) eqn:Ht; cbn [negb].
  2:{ rewrite falsy_positions by assumption. reflexivity. }
  destruct resData as [| | b | n | s | l | ps]; simpl in *; try discriminate;
    try reflexivity.
  change (opt_get (JObj ps) "data") with (assoc "data" ps).
  change (opt_get (JObj ps) "properties") with (assoc "properties" ps).
  change (opt_get (JObj ps) "success") with (assoc "success" ps).
  destruct (as_array (assoc "data" ps)) as [ld |] eqn:Hd; [reflexivity |].
  destruct (as_array (assoc "properties" ps)) as [lp |] eqn:Hp; [reflexivity |].
  destruct (as_array (opt_get (assoc "success" ps) "data")) as [lsd |] eqn:Hsd;
    [reflexivity |].
  destruct (as_array (opt_get (assoc "data" ps) "data")) as [ldd |] eqn:Hdd;
    reflexivity.
Qed.

Example extractList_shapes :
  let items := [JNum 1; JNum 2] in
  extractList (JArr items) = inl items
  /\ extractList (JObj [("data", JArr items)]) = inl items
  /\ extractList (JObj [("properties", JArr items)]) = inl items
  /\ extractList (JObj [("success", JObj [("data", JArr items)])]) = inl items
  /\ extractList (JObj [("data", JObj [("data", JArr items)])]) = inl items
  /\ extractList JNull = inl []
  /\ extractList JUndefined = inl []
  /\ extractList (JObj [("items", JArr items)]) = inl []
  /\ extractList (JStr "oops") = inl [].
Proof. vm_compute. repeat split; reflexivity. Qed.

End AllPropertyProperties.

(* ===================================================================== *)
(** ** Properties: block and unblock *)
(* ===================================================================== *)

Module ModerationProperties.
Import Vocabulary.

Lemma lookup_map {A B : Type} (f : A -> B) (l : list A) (i : nat) :
  List.map f l !! i = f <$> (l !! i).
Proof.
  revert i; induction l as [| x l IH]; intros [| i]; simpl; auto.
Qed.

Lemma with_status_same u s : same_client_but_status u (AllClients.with_status u s).
Proof. unfold same_client_but_status; simpl; repeat split. Qed.

Lemma with_isBlocked_same u b :
  same_owner_but_isBlocked u (BuilderVerification.with_isBlocked u b).
Proof. unfold same_owner_but_isBlocked; simpl; repeat split. Qed.

Lemma same_client_refl u : same_client_but_status u u.
Proof. unfold same_client_but_status; repeat split. Qed.

Lemma same_owner_refl u : same_owner_but_isBlocked u u.
Proof. unfold same_owner_but_isBlocked; repeat split. Qed.

Lemma patch_users_clients userId data before :
  clients_patched userId data before
    (AllClients.patch_users userId (AllClients.status_of_reply data) before).
Proof.
  unfold clients_patched, AllClients.patch_users; split.
  - apply List.length_map.
  - intros i u Hi. rewrite lookup_map, Hi; simpl.
    eexists; split; [reflexivity |].
    destruct (strict_eq (AllClients.id u) userId).
    + split; [apply with_status_same | reflexivity].
    + split; [apply same_client_refl | reflexivity].
Qed.

Lemma patch_users_owners userId data before :
  owners_patched userId data before
    (BuilderVerification.patch_users userId (opt_get data "isBlocked") before).
Proof.
  unfold owners_patched, BuilderVerification.patch_users; split.
  - apply List.length_map.
  - intros i u Hi. rewrite lookup_map, Hi; simpl.
    eexists; split; [reflexivity |].
    destruct (strict_eq (BuilderVerification.id u) userId).
    + split; [apply with_isBlocked_same | reflexivity].
    + split; [apply same_owner_refl | reflexivity].
Qed.

Lemma get_not_nullish data k : nullish data = false -> exists v, get data k = Some v.
Proof. destruct data; simpl; try discriminate; eauto. Qed.

Lemma users_after_selected f w :
  AllClients.users (AllClients.setSelectedUser f w) = AllClients.users w.
Proof. reflexivity. Qed.

(** C5. When a block/unblock request is fulfilled with a reply body, the
    list keeps its length and order; every row whose id is not the
    targeted one is unchanged; a row with the targeted id keeps all its
    other fields and takes the status the reply confirms (its [isBlocked],
    shown as Blocked or Active in the client list and stored as it is in
    the owner list), whatever the row held before. *)
Theorem toggleBlock_patches_only_status
    (type_error_message : string) (userId data : jsval)
    (seen : option AllClients.user)
    (w : AllClients.world) (wo : BuilderVerification.world) :
  nullish data = false ->
  clients_patched userId data (AllClients.users w)
    (AllClients.users
       (AllClients.toggleBlock_settle type_error_message userId seen
          (Fulfilled data) w))
  /\ owners_patched userId data (BuilderVerification.users wo)
    (BuilderVerification.users
       (BuilderVerification.toggleBlock_settle type_error_message userId
          (Fulfilled data) wo)).
Proof.
  intros Hdata.
  destruct (get_not_nullish data "message" Hdata) as [m Hm].
  split.
  - unfold AllClients.toggleBlock_settle. rewrite Hm.
    destruct seen as [sel |];
      [destruct (strict_eq (AllClients.id sel) userId) |];
      rewrite ?users_after_selected; apply patch_users_clients.
  - unfold BuilderVerification.toggleBlock_settle. rewrite Hm.
    apply patch_users_owners.
Qed.

Lemma toggleBlock_patches_only_status_witness :
  nullish Samples.blocked_reply = false
  /\ clients_patched (JStr "u1") Samples.blocked_reply [Samples.alice; Samples.bob]
       [AllClients.with_status Samples.alice (JStr "Blocked"); Samples.bob]
  /\ owners_patched (JStr "u1") Samples.blocked_reply [Samples.owner_alice]
       [BuilderVerification.with_isBlocked Samples.owner_alice (JBool true)].
Proof.
  split; [reflexivity |].
  apply (toggleBlock_patches_only_status Samples.engine_message (JStr "u1")
           Samples.blocked_reply None (AllClients.now Samples.loaded)
           Samples.owners_world).
  reflexivity.
Defined.

End ModerationProperties.

(* ===================================================================== *)
(** ** Properties: refresh failures and the stored session *)
(* ===================================================================== *)

Module SessionProperties.

Lemma no_token_after_remove (ls : localStorage) :
  has_token (removeItem "adminToken" ls) = false.
Proof.
  unfold has_token, getItem, removeItem. rewrite lookup_delete_eq. reflexivity.
Qed.

Lemma getItem_remove_other (ls : localStorage) (k k' : string) :
  k <> k' -> getItem (removeItem k ls) k' = getItem ls k'.
Proof.
  intros Hne. unfold getItem, removeItem. rewrite lookup_delete_ne by assumption.
  reflexivity.
Qed.

(** A response whose status is 401 is an object, so both ways the pages
    test for it agree. *)
Lemma session_expired_iff_401 (e : js_error) :
  BuilderVerification.session_expired e = status_is_401 e.
Proof.
  unfold BuilderVerification.session_expired, status_is_401.
  destruct (err_response e) as [| | b | n | s | l | ps]; simpl; try reflexivity.
  - destruct b; reflexivity.
  - rewrite andb_false_r. reflexivity.
  - rewrite andb_false_r. reflexivity.
Qed.

Lemma fetchUsers_catch_users e w :
  AllClients.users (AllClients.fetchUsers_catch e w) = AllClients.users w
  /\ AllClients.storage (AllClients.fetchUsers_catch e w)
     = (if status_is_401 e
        then removeItem "adminToken" (AllClients.storage w)
        else AllClients.storage w).
Proof.
  unfold AllClients.fetchUsers_catch.
  destruct (status_is_401 e); split; reflexivity.
Qed.

Lemma fetchOwners_catch_users e w :
  BuilderVerification.users (BuilderVerification.fetchOwners_catch e w)
    = BuilderVerification.users w
  /\ BuilderVerification.storage (BuilderVerification.fetchOwners_catch e w)
     = (if status_is_401 e
        then removeItem "adminToken" (BuilderVerification.storage w)
        else BuilderVerification.storage w).
Proof.
  unfold BuilderVerification.fetchOwners_catch.
  rewrite session_expired_iff_401.
  destruct (status_is_401 e); split; reflexivity.
Qed.

Lemma fetchUsers_start_keeps API_URL w :
  AllClients.users (fst (AllClients.fetchUsers API_URL w)) = AllClients.users w
  /\ AllClients.storage (fst (AllClients.fetchUsers API_URL w)) = AllClients.storage w.
Proof.
  unfold AllClients.fetchUsers.
  destruct (truthy (AllClients.token w)); split; reflexivity.
Qed.

Lemma fetchOwners_start_keeps API_URL token wo :
  BuilderVerification.users (fst (BuilderVerification.fetchOwners API_URL token wo))
    = BuilderVerification.users wo
  /\ BuilderVerification.storage (fst (BuilderVerification.fetchOwners API_URL token wo))
    = BuilderVerification.storage wo.
Proof.
  unfold BuilderVerification.fetchOwners.
  destruct (truthy token); split; reflexivity.
Qed.

(** C4. When the request of a refresh is rejected, the cached list is
    the one from before the call; if the rejection carries status 401
    the stored session has no token afterwards, and for every other
    rejection the stored session is left as it was. This holds for the
    client list ([fetchUsers]) and the owner list ([fetchOwners]), from
    the state in which the refresh was started to the state after its
    request settled. *)
Theorem refresh_failure_keeps_cache
    (API_URL : jsval) (toLocaleDateString : jsval -> option string)
    (type_error_message : string) (token : jsval)
    (e : js_error) (w : AllClients.world) (wo : BuilderVerification.world) :
  let w' := AllClients.fetchUsers_settle toLocaleDateString type_error_message
              (Rejected e) (fst (AllClients.fetchUsers API_URL w)) in
  let wo' := BuilderVerification.fetchOwners_settle toLocaleDateString
               type_error_message (Rejected e)
               (fst (BuilderVerification.fetchOwners API_URL token wo)) in
  AllClients.users w' = AllClients.users w
  /\ BuilderVerification.users wo' = BuilderVerification.users wo
  /\ (if status_is_401 e
      then has_token (AllClients.storage w') = false
           /\ has_token (BuilderVerification.storage wo') = false
      else AllClients.storage w' = AllClients.storage w
           /\ BuilderVerification.storage wo' = BuilderVerification.storage wo).
Proof.
  cbn zeta. unfold AllClients.fetchUsers_settle, BuilderVerification.fetchOwners_settle.
  destruct (fetchUsers_catch_users e (fst (AllClients.fetchUsers API_URL w)))
    as [Hu Hs].
  destruct (fetchOwners_catch_users e
              (fst (BuilderVerification.fetchOwners API_URL token wo)))
    as [Huo Hso].
  destruct (fetchUsers_start_keeps API_URL w) as [Hu0 Hs0].
  destruct (fetchOwners_start_keeps API_URL token wo) as [Huo0 Hso0].
  rewrite Hu, Huo, Hs, Hso, Hu0, Huo0, Hs0, Hso0.
  destruct (status_is_401 e); repeat split; apply no_token_after_remove.
Qed.

(** The client page read its token once, when it mounted; the copy it
    holds is not touched when a refresh fails, whatever the status. *)
Lemma memoised_token_survives
    (toLocaleDateString : jsval -> option string) (type_error_message : string)
    (e : js_error) (w : AllClients.world) :
  AllClients.token
    (AllClients.fetchUsers_settle toLocaleDateString type_error_message
       (Rejected e) w)
  = AllClients.token w.
Proof.
  unfold AllClients.fetchUsers_settle, AllClients.fetchUsers_catch.
  destruct (status_is_401 e); reflexivity.
Qed.

(** A fulfilled refresh whose payload has no usable [users] array fails
    inside the handler and is treated as a failure without a status:
    list and stored session stay as they were. *)
Lemma refresh_bad_payload_keeps_cache
    (toLocaleDateString : jsval -> option string) (type_error_message : string)
    (data : jsval) (w : AllClients.world) :
  AllClients.users_of_response toLocaleDateString data = None ->
  let w' := AllClients.fetchUsers_settle toLocaleDateString type_error_message
              (Fulfilled data) w in
  AllClients.users w' = AllClients.users w
  /\ AllClients.storage w' = AllClients.storage w.
Proof.
  intros Hnone. cbn zeta. unfold AllClients.fetchUsers_settle. rewrite Hnone.
  split; reflexivity.
Qed.

(** Logout removes the token and the profile together. *)
Lemma logout_clears_token_and_profile (ls : localStorage) :
  has_token (Header.handleLogout ls) = false
  /\ has_profile (Header.handleLogout ls) = false.
Proof.
  unfold Header.handleLogout, has_token, has_profile, getItem, removeItem.
  split.
  - rewrite !lookup_delete_ne by discriminate. rewrite lookup_delete_eq. reflexivity.
  - rewrite lookup_delete_ne by discriminate. rewrite lookup_delete_eq. reflexivity.
Qed.

(** C3, as the code behaves: the clear that a 401 answer to a refresh
    triggers removes the token and nothing else, so the stored profile
    stays behind without a token. *)
Theorem expiry_removes_token_keeps_profile
    (toLocaleDateString : jsval -> option string) (type_error_message : string)
    (e : js_error) (w : AllClients.world) (wo : BuilderVerification.world) :
  status_is_401 e = true ->
  let ls' := AllClients.storage
               (AllClients.fetchUsers_settle toLocaleDateString
                  type_error_message (Rejected e) w) in
  let lso' := BuilderVerification.storage
                (BuilderVerification.fetchOwners_settle toLocaleDateString
                   type_error_message (Rejected e) wo) in
  (has_token ls' = false
   /\ has_profile ls' = has_profile (AllClients.storage w))
  /\ (has_token lso' = false
      /\ has_profile lso' = has_profile (BuilderVerification.storage wo)).
Proof.
  intros H401. cbn zeta.
  unfold AllClients.fetchUsers_settle, BuilderVerification.fetchOwners_settle.
  destruct (fetchUsers_catch_users e w) as [_ Hs].
  destruct (fetchOwners_catch_users e wo) as [_ Hso].
  rewrite Hs, Hso, H401. unfold has_profile.
  rewrite !getItem_remove_other by discriminate.
  repeat split; apply no_token_after_remove.
Qed.

Lemma expiry_removes_token_keeps_profile_witness :
  status_is_401 Samples.unauthorized = true
  /\ has_profile Samples.session = true
  /\ (has_token (removeItem "adminToken" Samples.session) = false
      /\ has_profile (removeItem "adminToken" Samples.session)
         = has_profile Samples.session).
Proof.
  split; [reflexivity |]. split; [reflexivity |].
  apply (expiry_removes_token_keeps_profile Samples.dates Samples.engine_message
           Samples.unauthorized (AllClients.now Samples.loaded) Samples.owners_world).
  reflexivity.
Defined.

End SessionProperties.

(* ===================================================================== *)
(** ** Properties: the filtered view *)
(* ===================================================================== *)

Module FilterProperties.
Import Vocabulary.

Lemma startsWith_spec (s p : string) :
  startsWith s p = true <-> exists rest, s = p +:+ rest.
Proof.
  revert s; induction p as [| a p IH]; intros s; simpl.
  - split; [intros _; exists s; reflexivity | reflexivity].
  - destruct s as [| b s]; simpl.
    + split; [discriminate | intros [rest H]; discriminate].
    + rewrite andb_true_iff, Ascii.eqb_eq, IH. split.
      * intros [-> [rest ->]]. exists rest. reflexivity.
      * intros [rest H]. inversion H; subst. split; [reflexivity | eauto].
Qed.

Lemma includes_spec (s q : string) :
  includes s q = true <-> contains s q.
Proof.
  unfold contains. induction s as [| c s IH].
  - simpl. rewrite orb_false_r, startsWith_spec. split.
    + intros [rest H]. exists "", rest. exact H.
    + intros [[| a before] [rest H]]; [eauto | discriminate].
  - cbn [includes]. rewrite orb_true_iff, startsWith_spec, IH. split.
    + intros [[rest H] | [before [rest H]]].
      * exists "", rest. exact H.
      * exists (String c before), rest. simpl. rewrite H. reflexivity.
    + intros [[| a before] [rest H]].
      * left. exists rest. exact H.
      * right. simpl in H. inversion H; subst. eauto.
Qed.

Lemma includes_empty (s : string) : includes s "" = true.
Proof. destruct s; reflexivity. Qed.


Lemma filter_sublist {A : Type} (f : A -> bool) (l : list A) :
  List.filter f l `sublist_of` l.
Proof.
  induction l as [| x l IH]; simpl; [constructor |].
  destruct (f x); [apply sublist_skip | apply sublist_cons]; exact IH.
Qed.

Section Lowering.

Variable toLowerCase : string -> string.

(** What the client page's filter callback decides. *)
Lemma client_keep_spec (search statusFilter : string) (u : AllClients.user) :
  AllClients.keep toLowerCase search statusFilter u
  = client_status_passes statusFilter u
    && includes (toLowerCase (AllClients.search_text u)) (toLowerCase search).
Proof.
  unfold AllClients.keep, client_status_passes; cbn zeta.
  destruct (toLowerCase search) as [| c q] eqn:Hq.
  - rewrite includes_empty. simpl.
    destruct (String.eqb statusFilter "All"); simpl;
      [| destruct (strict_eq _ _)]; reflexivity.
  - cbn [truthy String.eqb negb andb].
    destruct (includes _ _); simpl;
      destruct (String.eqb statusFilter "All"); simpl;
      try destruct (strict_eq _ _); reflexivity.
Qed.

(** Whatever the query, a row the owner page keeps passes the status
    selection. *)
Lemma owner_keep_status (searchQuery statusFilter : string)
    (u : BuilderVerification.owner) :
  BuilderVerification.keep toLowerCase searchQuery statusFilter u = true ->
  owner_status_passes statusFilter u = true.
Proof.
  unfold BuilderVerification.keep, owner_status_passes.
  destruct (String.eqb_spec statusFilter "active") as [-> | _];
    [| destruct (String.eqb statusFilter "blocked")];
    destruct (truthy (BuilderVerification.isBlocked u)); simpl;
    try discriminate; reflexivity.
Qed.

(** The empty string has no letters to lower. *)
Hypothesis lower_empty : toLowerCase "" = "".

(** What the owner page's filter callback decides. *)
Lemma owner_keep_spec (searchQuery statusFilter : string)
    (u : BuilderVerification.owner) :
  BuilderVerification.keep toLowerCase searchQuery statusFilter u
  = owner_status_passes statusFilter u
    && includes (toLowerCase (BuilderVerification.search_text u))
                (toLowerCase searchQuery).
Proof.
  unfold BuilderVerification.keep, owner_status_passes; cbn zeta.
  assert (Hq : (if truthy (JStr searchQuery)
                then includes (toLowerCase (BuilderVerification.search_text u))
                              (toLowerCase searchQuery)
                else true)
               = includes (toLowerCase (BuilderVerification.search_text u))
                          (toLowerCase searchQuery)).
  { destruct searchQuery; [rewrite lower_empty, includes_empty |]; reflexivity. }
  rewrite Hq.
  destruct (String.eqb_spec statusFilter "active") as [-> | _];
    [| destruct (String.eqb statusFilter "blocked")];
    destruct (truthy (BuilderVerification.isBlocked u)); reflexivity.
Qed.

End Lowering.



(** With a lower-casing of the letters A to Z: *)
Example filter_samples :
  AllClients.filtered Samples.lower [Samples.alice; Samples.bob] "BOB@" "All"
  = [Samples.bob]
  /\ AllClients.filtered Samples.lower [Samples.alice; Samples.bob] "" "Blocked" = []
  /\ AllClients.filtered Samples.lower
       [AllClients.with_status Samples.alice (JStr "Blocked"); Samples.bob]
       "user" "Blocked"
     = [AllClients.with_status Samples.alice (JStr "Blocked")]
  /\ BuilderVerification.filteredOwners Samples.lower [Samples.owner_alice]
       "ALICE" "active"
     = [Samples.owner_alice]
  /\ BuilderVerification.filteredOwners Samples.lower [Samples.owner_alice]
       "" "blocked" = [].
Proof. vm_compute. repeat split; reflexivity. Qed.

End FilterProperties.

(* ===================================================================== *)
(** ** Properties: overlapping block requests *)
(* ===================================================================== *)

Module InFlightProperties.
Import Vocabulary Samples.

(** C1, refuted as stated: with Alice's block request still unresolved, a
    second click on her Block button sends a second request. *)
Lemma double_click_sends_twice :
  ~ second_apply_rejected api dates engine_message.
Proof.
  intros Hclaim.
  destruct (Hclaim blocking_alice (JStr "u1") None) as [Hnet _].
  - vm_compute. left. reflexivity.
  - vm_compute in Hnet. discriminate Hnet.
Qed.

(** The two clicks, spelled out: two handlers are suspended and two PUT
    requests follow the initial list request. *)
Example double_click_trace :
  let p := AllClients.run api dates engine_message loaded
             [AllClients.Click_block (JStr "u1"); AllClients.Click_block (JStr "u1")] in
  AllClients.inflight p
    = [AllClients.ToggleBlock (JStr "u1") None; AllClients.ToggleBlock (JStr "u1") None]
  /\ List.map req_method (AllClients.network (AllClients.now p)) = [GET; PUT; PUT].
Proof. vm_compute. split; reflexivity. Qed.

(** C1, as the code behaves: the pages keep no record of unresolved
    requests. Whenever the id is truthy and a token is present, a click
    on a client row's Block button sends one block request and suspends
    one more handler, whatever is already in flight; the owner page does
    the same whenever its token is present. A call is turned away before
    the network only for a missing id (client page) or a missing token. *)
Theorem toggleBlock_sends_on_every_call
    (API_URL : jsval) (toLocaleDateString : jsval -> option string)
    (type_error_message : string)
    (p : AllClients.page) (userId token : jsval) (wo : BuilderVerification.world) :
  truthy userId = true ->
  truthy (AllClients.token (AllClients.now p)) = true ->
  truthy token = true ->
  (let p' := AllClients.step API_URL toLocaleDateString type_error_message p
               (AllClients.Click_block userId) in
   AllClients.network (AllClients.now p')
     = (AllClients.network (AllClients.now p)
          ++ [block_request API_URL (AllClients.token (AllClients.now p)) userId])%list
   /\ AllClients.inflight p'
     = (AllClients.inflight p
          ++ [AllClients.ToggleBlock userId
                (AllClients.selectedUser (AllClients.now p))])%list)
  /\ BuilderVerification.toggleBlock API_URL token userId wo
     = (BuilderVerification.send (block_request API_URL token userId) wo,
        Some (BuilderVerification.ToggleBlock userId)).
Proof.
  intros Hid Htok Htok'. split.
  - cbn zeta. unfold AllClients.step, AllClients.started, AllClients.toggleBlock.
    rewrite Hid, Htok. simpl. split; reflexivity.
  - unfold BuilderVerification.toggleBlock. rewrite Htok'. reflexivity.
Qed.

Lemma toggleBlock_sends_on_every_call_witness :
  truthy (JStr "u1") = true
  /\ truthy (AllClients.token (AllClients.now blocking_alice)) = true
  /\ truthy (JStr "tok") = true
  /\ In (AllClients.ToggleBlock (JStr "u1") None) (AllClients.inflight blocking_alice)
  /\ AllClients.inflight
       (AllClients.step api dates engine_message blocking_alice
          (AllClients.Click_block (JStr "u1")))
     = (AllClients.inflight blocking_alice
          ++ [AllClients.ToggleBlock (JStr "u1")
                (AllClients.selectedUser (AllClients.now blocking_alice))])%list.
Proof.
  split; [reflexivity |]. split; [reflexivity |]. split; [reflexivity |].
  split; [left; reflexivity |].
  apply (toggleBlock_sends_on_every_call api dates engine_message blocking_alice
           (JStr "u1") (JStr "tok") owners_world); reflexivity.
Defined.

(** The local guards of the block action: a falsy id (client page) or a
    falsy token sends nothing and suspends nothing. *)
Lemma toggleBlock_local_guards
    (API_URL userId token : jsval) (w : AllClients.world)
    (wo : BuilderVerification.world) :
  (truthy userId = false \/ truthy (AllClients.token w) = false ->
   AllClients.network (fst (AllClients.toggleBlock API_URL userId w))
     = AllClients.network w
   /\ snd (AllClients.toggleBlock API_URL userId w) = None
   /\ AllClients.users (fst (AllClients.toggleBlock API_URL userId w))
     = AllClients.users w)
  /\ (truthy token = false ->
      BuilderVerification.toggleBlock API_URL token userId wo
      = (BuilderVerification.notify
           (ToastError (JStr "Not authenticated for this action.")) wo, None)).
Proof.
  split.
  - unfold AllClients.toggleBlock. intros [H | H].
    + rewrite H. simpl. auto.
    + rewrite H. destruct (truthy userId); simpl; auto.
  - intros H. unfold BuilderVerification.toggleBlock. rewrite H. reflexivity.
Qed.

End InFlightProperties.

(* ===================================================================== *)
(** ** Properties: the token guard of authorized calls *)
(* ===================================================================== *)

Module TokenGuardProperties.
Import Vocabulary Samples.

(** C2, where the code departs from it: with no token in storage
    ([adminToken] is [null]), publishing, unpublishing and a confirmed
    delete of a listing are not turned away; each sends its request, with
    the text [Bearer null] as credential, and waits for the answer. *)
Theorem listing_actions_sent_without_token
    (VITE_API_BASE_URL id status : jsval) (w : AllProperty.world) :
  AllProperty.toggleStatus VITE_API_BASE_URL JNull id status w
  = (AllProperty.send
       {| req_method := PUT;
          req_url := toStr (AllProperty.API_URL VITE_API_BASE_URL)
                       +:+ "/api/properties/" +:+ toStr status +:+ "/" +:+ toStr id;
          req_authorization := Some "Bearer null" |} w,
     Some (AllProperty.ToggleStatus id status))
  /\ AllProperty.handleDelete VITE_API_BASE_URL JNull true id w
  = (AllProperty.send
       {| req_method := DELETE;
          req_url := toStr (AllProperty.API_URL VITE_API_BASE_URL)
                       +:+ "/api/properties/delete/" +:+ toStr id;
          req_authorization := Some "Bearer null" |} w,
     Some (AllProperty.HandleDelete id)).
Proof. split; reflexivity. Qed.

(** On a page mounted without a session, one click on PUBLISH reaches
    the network. *)
Example publish_without_session :
  AllProperty.network
    (fst (AllProperty.toggleStatus api (getItem ∅ "adminToken")
            (JStr "p1") (JStr "approve") listings_world))
  = [ {| req_method := PUT;
         req_url := "https://api.example/api/properties/approve/p1";
         req_authorization := Some "Bearer null" |} ].
Proof. reflexivity. Qed.

(** X29. The sibling operations do check: without a token the list
    fetches and the block actions send nothing, suspend nothing, and
    leave list and storage alone. *)
Lemma guarded_calls_short_circuit
    (API_URL userId token : jsval) (w : AllClients.world)
    (wo : BuilderVerification.world) :
  truthy (AllClients.token w) = false ->
  truthy token = false ->
  let results :=
    [ AllClients.fetchUsers API_URL w; AllClients.toggleBlock API_URL userId w ] in
  let owner_results :=
    [ BuilderVerification.fetchOwners API_URL token wo;
      BuilderVerification.toggleBlock API_URL token userId wo ] in
  Forall (fun r => snd r = None
                   /\ AllClients.network (fst r) = AllClients.network w
                   /\ AllClients.users (fst r) = AllClients.users w
                   /\ AllClients.storage (fst r) = AllClients.storage w) results
  /\ Forall (fun r => snd r = None
                   /\ BuilderVerification.network (fst r) = BuilderVerification.network wo
                   /\ BuilderVerification.users (fst r) = BuilderVerification.users wo
                   /\ BuilderVerification.storage (fst r) = BuilderVerification.storage wo)
            owner_results.
Proof.
  intros Hw Ht. cbn zeta.
  unfold AllClients.fetchUsers, AllClients.toggleBlock,
    BuilderVerification.fetchOwners, BuilderVerification.toggleBlock.
  rewrite Hw, Ht. simpl.
  split; repeat constructor; destruct (truthy userId); reflexivity.
Qed.

End TokenGuardProperties.

(* ===================================================================== *)
(** ** Properties: the detail drawer *)
(* ===================================================================== *)

Module DrawerProperties.
Import Vocabulary Samples.

(** X30. When nothing happened between the click and the answer (the
    handler saw the selection that is still current), the drawer's row
    takes the confirmed status if it is the targeted one and is left
    alone if not. *)
Lemma drawer_follows_without_overlap
    (type_error_message : string) (userId data : jsval) (w : AllClients.world) :
  nullish data = false ->
  AllClients.selectedUser
    (AllClients.toggleBlock_settle type_error_message userId
       (AllClients.selectedUser w) (Fulfilled data) w)
  = match AllClients.selectedUser w with
    | Some sel =>
        if strict_eq (AllClients.id sel) userId
        then Some (AllClients.with_status sel (confirmed_status data))
        else Some sel
    | None => None
    end.
Proof.
  intros Hdata. unfold AllClients.toggleBlock_settle.
  destruct (ModerationProperties.get_not_nullish data "message" Hdata) as [m ->].
  destruct (AllClients.selectedUser w) as [sel |] eqn:Hsel; simpl.
  - destruct (strict_eq (AllClients.id sel) userId); simpl; rewrite Hsel;
      reflexivity.
  - exact Hsel.
Qed.

(** C10, where the code departs from it. The handler tests the selection
    of the render in which the button was clicked, not the one current
    when the answer arrives. First trace: Block is clicked on Alice's
    row, her drawer is opened while the request is unresolved, the
    service confirms the block: the list shows Alice blocked, the open
    drawer still shows her active. Second trace: Block is clicked in
    Alice's drawer, the drawer is closed and Bob's is opened, the service
    confirms Alice's block: Bob's drawer shows him blocked although his
    row in the list is active. *)
Theorem drawer_misses_overlapping_answer :
  let view_during_request :=
    AllClients.run api dates engine_message loaded
      [ AllClients.Click_block (JStr "u1");
        AllClients.Click_view alice;
        AllClients.Settles 0 (Fulfilled blocked_reply) ] in
  let other_drawer_during_request :=
    AllClients.run api dates engine_message loaded
      [ AllClients.Click_view alice;
        AllClients.Click_drawer_block;
        AllClients.Click_backdrop;
        AllClients.Click_view bob;
        AllClients.Settles 0 (Fulfilled blocked_reply) ] in
  (AllClients.users (AllClients.now view_during_request)
     = [AllClients.with_status alice (JStr "Blocked"); bob]
   /\ AllClients.drawerOpen (AllClients.now view_during_request) = true
   /\ AllClients.selectedUser (AllClients.now view_during_request) = Some alice)
  /\ (AllClients.users (AllClients.now other_drawer_during_request)
        = [AllClients.with_status alice (JStr "Blocked"); bob]
      /\ AllClients.drawerOpen (AllClients.now other_drawer_during_request) = true
      /\ AllClients.selectedUser (AllClients.now other_drawer_during_request)
         = Some (AllClients.with_status bob (JStr "Blocked"))).
Proof. vm_compute. repeat split; reflexivity. Qed.

End DrawerProperties.

(* ===================================================================== *)
(** ** Properties: the exported text *)
(* ===================================================================== *)

Module ExportProperties.
Import Vocabulary.

Lemma append_cons (x : ascii) (a b : string) :
  String x a +:+ b = String x (a +:+ b).
Proof. reflexivity. Qed.

Lemma append_assoc (a b c : string) : (a +:+ b) +:+ c = a +:+ (b +:+ c).
Proof.
  induction a as [| x a IH]; [reflexivity |].
  rewrite !append_cons, IH. reflexivity.
Qed.

Lemma append_empty_r (a : string) : a +:+ "" = a.
Proof.
  induction a as [| x a IH]; [reflexivity |].
  rewrite append_cons, IH. reflexivity.
Qed.

Lemma snoc_append (field : string) (c : ascii) (s : string) :
  Csv.snoc field c +:+ s = field +:+ String c s.
Proof. unfold Csv.snoc. rewrite append_assoc. reflexivity. Qed.

(** Reading the escaped text of [s] inside a quoted field adds [s] to
    the field and stays inside the quotes. *)
Lemma read_escaped (s field : string) (record : list string)
    (done : list (list string)) (rest : string) :
  Csv.read_from Csv.Quoted field record done (AllClients.escape_quotes s +:+ rest)
  = Csv.read_from Csv.Quoted (field +:+ s) record done rest.
Proof.
  revert field; induction s as [| c s IH]; intros field; simpl.
  - rewrite append_empty_r. reflexivity.
  - destruct (Ascii.eqb c AllClients.dquote) eqn:Hc.
    + apply Ascii.eqb_eq in Hc; subst c. simpl.
      rewrite IH, snoc_append. reflexivity.
    + simpl. unfold Csv.dquote. rewrite Hc, IH, snoc_append. reflexivity.
Qed.

Lemma cell_quoted (c : jsval) : AllClients.cell c = quoted (toStr c).
Proof. reflexivity. Qed.

(** At the start of a field, a cell is read up to its closing quote. *)
Lemma read_quoted (m : Csv.mode) (s field : string) (record : list string)
    (done : list (list string)) (rest : string) :
  m = Csv.RecordStart /\ record = [] \/ m = Csv.FieldStart ->
  Csv.read_from m field record done (quoted s +:+ rest)
  = Csv.read_from Csv.QuoteInQuoted s record done rest.
Proof.
  intros Hm. unfold quoted.
  change (String AllClients.dquote
            (AllClients.escape_quotes s +:+ String AllClients.dquote "") +:+ rest)
    with (String AllClients.dquote
            ((AllClients.escape_quotes s +:+ String AllClients.dquote "") +:+ rest)).
  rewrite append_assoc.
  destruct Hm as [[-> ->] | ->]; simpl; rewrite read_escaped; reflexivity.
Qed.

(** A line of cells is read as the fields of one record; [k] says what
    the reader does with the record once the line's last closing quote
    has been read. *)
Lemma read_line (cells : list string) :
  forall (c : string) (m : Csv.mode) (field : string) (record : list string)
         (done : list (list string)) (rest : string),
    m = Csv.RecordStart /\ record = [] \/ m = Csv.FieldStart ->
    Csv.read_from m field record done (line (c :: cells) +:+ rest)
    = Csv.read_from Csv.QuoteInQuoted (List.last (c :: cells) "")
        (record ++ List.removelast (c :: cells)) done rest.
Proof.
  induction cells as [| c2 cells IH]; intros c m field record done rest Hm.
  - change (line [c]) with (quoted c). rewrite read_quoted by assumption.
    simpl List.removelast. rewrite List.app_nil_r. reflexivity.
  - change (line (c :: c2 :: cells))
      with (quoted c +:+ String AllClients.comma "" +:+ line (c2 :: cells)).
    rewrite !append_assoc. rewrite read_quoted by assumption.
    change (String AllClients.comma "" +:+ line (c2 :: cells) +:+ rest)
      with (String AllClients.comma (line (c2 :: cells) +:+ rest)).
    cbn [Csv.read_from].
    change (Ascii.eqb AllClients.comma Csv.dquote) with false.
    change (Ascii.eqb AllClients.comma Csv.comma) with true.
    cbn iota.
    rewrite (IH c2 Csv.FieldStart) by (right; reflexivity).
    change (List.last (c :: c2 :: cells) "") with (List.last (c2 :: cells) "").
    change (List.removelast (c :: c2 :: cells))
      with (c :: List.removelast (c2 :: cells)).
    rewrite <- List.app_assoc. reflexivity.
Qed.

Lemma removelast_last (c : string) (cells : list string) :
  (List.removelast (c :: cells) ++ [List.last (c :: cells) ""])%list = c :: cells.
Proof.
  symmetry. apply List.app_removelast_last. discriminate.
Qed.

(** Records none of which is empty are read back from their text. *)
Lemma read_text (records : list (list string)) :
  forall (r : list string) (done : list (list string)),
    Forall (fun r => r <> []) (r :: records) ->
    Csv.read_from Csv.RecordStart "" [] done (text (r :: records))
    = Some (done ++ r :: records)%list.
Proof.
  induction records as [| r2 records IH]; intros r done Hne.
  - apply Forall_inv in Hne. destruct r as [| c cells]; [congruence |].
    unfold text; simpl List.map; cbn [join].
    rewrite <- (append_empty_r (line (c :: cells))).
    rewrite read_line by (left; split; reflexivity).
    cbn [Csv.read_from]. rewrite List.app_nil_l, removelast_last. reflexivity.
  - pose proof (Forall_inv Hne) as Hr. apply Forall_inv_tail in Hne.
    destruct r as [| c cells]; [congruence |].
    change (text ((c :: cells) :: r2 :: records))
      with (line (c :: cells) +:+ String AllClients.newline "" +:+ text (r2 :: records)).
    rewrite read_line by (left; split; reflexivity).
    change (String AllClients.newline "" +:+ text (r2 :: records))
      with (String AllClients.newline (text (r2 :: records))).
    cbn [Csv.read_from].
    change (Ascii.eqb AllClients.newline Csv.dquote) with false.
    change (Ascii.eqb AllClients.newline Csv.comma) with false.
    change (Ascii.eqb AllClients.newline Csv.newline) with true.
    cbn iota.
    rewrite List.app_nil_l, removelast_last.
    rewrite IH by assumption.
    rewrite <- List.app_assoc. reflexivity.
Qed.

Lemma csv_of_rows_text (rs : list (list jsval)) :
  AllClients.csv_of_rows rs = text (List.map (List.map toStr) rs).
Proof.
  unfold AllClients.csv_of_rows, text, line.
  rewrite List.map_map. f_equal.
  apply List.map_ext. intros r. rewrite List.map_map. reflexivity.
Qed.

Lemma export_row_not_empty (visible : list AllClients.user) :
  Forall (fun r => r <> [])
    (List.map (List.map toStr) (AllClients.rows visible)).
Proof.
  unfold AllClients.rows. rewrite List.map_cons.
  constructor; [discriminate |].
  induction visible as [| u visible IH]; simpl; constructor;
    [discriminate | exact IH].
Qed.

(** C8. The export of the filtered view is a file named
    [clients_export.csv] whose text is a header line and one line per
    visible row, in the order of the filtered view, every cell between
    double quotes with the quotes inside it doubled, cells joined by
    commas and lines by line feeds, with no line break after the last
    line. A standard reader gets back, from that text, the ten column
    labels in their fixed order followed by the cells of each visible
    row exactly as they were converted to text, so the number of records
    read is the number of visible rows plus one. *)
Theorem exportCSV_round_trips
    (toLowerCase : string -> string) (w : AllClients.world) :
  let visible :=
    AllClients.filtered toLowerCase (AllClients.users w) (AllClients.search w)
      (AllClients.statusFilter w) in
  let records :=
    column_labels :: List.map (fun u => List.map toStr (AllClients.export_row u)) visible in
  snd (AllClients.exportCSV toLowerCase w) = ("clients_export.csv", text records)
  /\ Csv.read (text records) = Some records
  /\ List.length records = S (List.length visible).
Proof.
  cbn zeta.
  set (visible := AllClients.filtered _ _ _ _).
  assert (Hrows : List.map (List.map toStr) (AllClients.rows visible)
                  = column_labels
                    :: List.map (fun u => List.map toStr (AllClients.export_row u)) visible).
  { unfold AllClients.rows. rewrite List.map_cons, List.map_map. reflexivity. }
  split; [| split].
  - unfold AllClients.exportCSV. cbn [snd]. fold visible.
    unfold AllClients.csv. rewrite csv_of_rows_text, Hrows. reflexivity.
  - rewrite <- Hrows.
    pose proof (export_row_not_empty visible) as Hne.
    destruct (List.map (List.map toStr) (AllClients.rows visible)) as [| r rs] eqn:Hr.
    + discriminate Hrows.
    + unfold Csv.read. rewrite read_text by exact Hne.
      reflexivity.
  - cbn [List.length]. rewrite List.length_map. reflexivity.
Qed.

(** A cell that contains a quote, a comma and a line feed is read back
    as it was. *)
Example quote_round_trip :
  let awkward := String "q" (String AllClients.dquote
                   (String "," (String AllClients.newline "z"))) in
  Csv.read (text [["a"; awkward]; [awkward; ""]])
  = Some [["a"; awkward]; [awkward; ""]].
Proof. vm_compute. reflexivity. Qed.

End ExportProperties.

(* ===================================================================== *)
(** ** Further properties: session gate and navigation *)
(* ===================================================================== *)

Module GateProperties.
Import App.

Lemma no_token_no_page
    (JSON_parse : string -> option jsval) (ls : localStorage) (allowEnvAgent : bool) :
  ls !! "adminToken" = None \/ ls !! "adminToken" = Some "" ->
  ProtectedRoute JSON_parse ls allowEnvAgent = Navigate "/admin/login".
Proof.
  unfold ProtectedRoute, getItem. intros [-> | ->]; reflexivity.
Qed.

(** X1. The guard sends a visitor to the login page exactly when storage
    holds no [adminToken] or holds the empty string under that key; the
    stored profile and the route's [allowEnvAgent] play no part in it. *)
Theorem login_redirect_iff_no_token
    (JSON_parse : string -> option jsval) (ls : localStorage) (allowEnvAgent : bool) :
  ProtectedRoute JSON_parse ls allowEnvAgent = Navigate "/admin/login"
  <-> (ls !! "adminToken" = None \/ ls !! "adminToken" = Some "").
Proof.
  split; [| apply no_token_no_page].
  unfold ProtectedRoute, getItem.
  destruct (ls !! "adminToken") as [[| c t] |]; simpl.
  - intros _. right. reflexivity.
  - destruct (truthy _ && negb allowEnvAgent); discriminate.
  - intros _. left. reflexivity.
Qed.

(** X2. A stored profile that is missing, empty, or that [JSON.parse]
    rejects counts as the profile of an unrestricted administrator: with
    a token present the guarded page is rendered on every route, also on
    those closed to restricted agents. *)
Theorem unreadable_profile_is_unrestricted
    (JSON_parse : string -> option jsval) (ls : localStorage) (allowEnvAgent : bool) :
  has_token ls = true ->
  (ls !! "adminInfo" = None \/ ls !! "adminInfo" = Some ""
   \/ exists raw, ls !! "adminInfo" = Some raw /\ JSON_parse raw = None) ->
  ProtectedRoute JSON_parse ls allowEnvAgent = Children.
Proof.
  unfold has_token, ProtectedRoute, getStoredAdminInfo. intros -> Hinfo. simpl.
  unfold getItem at 1.
  destruct Hinfo as [-> | [-> | [raw [-> Hparse]]]]; try reflexivity.
  rewrite Hparse. simpl. destruct (negb (String.eqb raw "")); reflexivity.
Qed.

Lemma unreadable_profile_is_unrestricted_witness :
  has_token Samples.session = true
  /\ (exists raw, Samples.session !! "adminInfo" = Some raw
                  /\ Samples.parse_fails raw = None)
  /\ ProtectedRoute Samples.parse_fails Samples.session false = Children.
Proof.
  assert (Hraw : exists raw, Samples.session !! "adminInfo" = Some raw
                             /\ Samples.parse_fails raw = None).
  { exists "profile". split; reflexivity. }
  split; [reflexivity |]. split; [exact Hraw |].
  apply (unreadable_profile_is_unrestricted Samples.parse_fails Samples.session false).
  - reflexivity.
  - right. right. exact Hraw.
Defined.

(** X3. After logout every guarded route redirects to the login page,
    whatever was stored before. *)
Theorem logout_closes_every_guarded_route
    (JSON_parse : string -> option jsval) (ls : localStorage) (allowEnvAgent : bool) :
  ProtectedRoute JSON_parse (Header.handleLogout ls) allowEnvAgent
  = Navigate "/admin/login".
Proof.
  apply no_token_no_page. left.
  unfold Header.handleLogout, removeItem.
  rewrite !lookup_delete_ne by discriminate. apply lookup_delete_eq.
Qed.

(** X4. Once a refresh of the client list or of the owner list was
    answered with status 401, the next navigation to any guarded route
    redirects to the login page. *)
Theorem expired_session_is_redirected
    (JSON_parse : string -> option jsval)
    (toLocaleDateString : jsval -> option string) (type_error_message : string)
    (e : js_error) (w : AllClients.world) (wo : BuilderVerification.world)
    (allowEnvAgent : bool) :
  status_is_401 e = true ->
  ProtectedRoute JSON_parse
    (AllClients.storage
       (AllClients.fetchUsers_settle toLocaleDateString type_error_message
          (Rejected e) w)) allowEnvAgent
  = Navigate "/admin/login"
  /\ ProtectedRoute JSON_parse
       (BuilderVerification.storage
          (BuilderVerification.fetchOwners_settle toLocaleDateString
             type_error_message (Rejected e) wo)) allowEnvAgent
     = Navigate "/admin/login".
Proof.
  intros H401.
  unfold AllClients.fetchUsers_settle, BuilderVerification.fetchOwners_settle.
  destruct (SessionProperties.fetchUsers_catch_users e w) as [_ ->].
  destruct (SessionProperties.fetchOwners_catch_users e wo) as [_ ->].
  rewrite H401.
  split; apply no_token_no_page; left; apply lookup_delete_eq.
Qed.

Lemma expired_session_is_redirected_witness :
  status_is_401 Samples.unauthorized = true
  /\ ProtectedRoute Samples.parse_admin
       (AllClients.storage
          (AllClients.fetchUsers_settle Samples.dates Samples.engine_message
             (Rejected Samples.unauthorized) (AllClients.now Samples.loaded))) true
     = Navigate "/admin/login".
Proof.
  split; [reflexivity |].
  apply (expired_session_is_redirected Samples.parse_admin Samples.dates
           Samples.engine_message Samples.unauthorized
           (AllClients.now Samples.loaded) Samples.owners_world true).
  reflexivity.
Defined.

(** X5. Logout is idempotent, and it removes the four session keys and
    nothing else: every other key of storage reads as before. *)
Theorem logout_idempotent_and_framed (ls : localStorage) (k : string) :
  Header.handleLogout (Header.handleLogout ls) = Header.handleLogout ls
  /\ (if bool_decide (k ∈ ["adminToken"; "adminName"; "adminInfo"; "adminRole"])
      then Header.handleLogout ls !! k = None
      else Header.handleLogout ls !! k = ls !! k).
Proof.
  unfold Header.handleLogout, removeItem. split.
  - apply map_eq. intros j. rewrite !lookup_delete.
    repeat case_decide; reflexivity.
  - case_bool_decide as Hk.
    + apply list_elem_of_In in Hk. simpl in Hk.
      destruct Hk as [<- | [<- | [<- | [<- | []]]]];
        rewrite !lookup_delete; repeat case_decide; congruence.
    + rewrite list_elem_of_In in Hk. simpl in Hk.
      rewrite !lookup_delete_ne; [reflexivity | | | |];
        intros Heq; apply Hk; rewrite Heq;
        repeat (first [left; reflexivity | right]).
Qed.


Section Redirects.

Variable JSON_parse : string -> option jsval.
Variable matches : string -> string -> bool.

(** A route path selects itself, and no location is selected by two
    different paths of the table. *)
Hypothesis matches_self :
  forall path, In path (List.map fst routes) -> matches path path = true.
Hypothesis matches_one :
  forall path path' location,
    In path (List.map fst routes) -> In path' (List.map fst routes) ->
    matches path location = true -> matches path' location = true ->
    path = path'.

Lemma find_route_self (path : string) (r : route) :
  In (path, r) routes -> find_route matches path = Some r.
Proof.
  unfold find_route. intros Hin.
  pose proof (List.in_map fst _ _ Hin) as Hpath. simpl fst in Hpath.
  destruct (List.find (fun entry => matches (fst entry) path) routes)
    as [[path' r'] |] eqn:Hfind.
  - apply List.find_some in Hfind. destruct Hfind as [Hin' Hm]. simpl in Hm.
    assert (path' = path).
    { apply (matches_one path' path path); try assumption.
      - apply (List.in_map fst) in Hin'. exact Hin'.
      - apply matches_self. exact Hpath. }
    subst path'. simpl. f_equal.
    clear -Hin Hin'.
    unfold routes in *. simpl in Hin, Hin'.
    repeat (destruct Hin as [Hin | Hin];
            [inversion Hin; subst; clear Hin;
             repeat (destruct Hin' as [Hin' | Hin'];
                     [inversion Hin'; subst; try reflexivity |]);
             try contradiction |]);
      contradiction.
  - exfalso. pose proof (List.find_none _ _ Hfind (path, r) Hin) as Hm.
    simpl in Hm. rewrite matches_self in Hm; [discriminate | exact Hpath].
Qed.

Lemma land_step (n : nat) (ls : localStorage) (location : string) :
  land JSON_parse matches (S n) ls location
  = match render_at JSON_parse matches ls location with
    | Children => Some location
    | Navigate to => land JSON_parse matches n ls to
    end.
Proof. reflexivity. Qed.

(** X7. Navigation never loops: from every location, after at most two
    redirects a page is rendered. Without a token that page is the login
    page (or the location itself if it is the login route); a restricted
    agent lands on the property form whenever the requested route is
    closed to agents or unknown; anyone else gets the requested page, or
    the dashboard for an unknown location. *)
Theorem redirects_settle (ls : localStorage) (location : string) :
  land JSON_parse matches 2 ls location
  = Some
      (match find_route matches location with
       | Some Bare => location
       | Some (Protected allow) =>
           if negb (has_token ls) then "/admin/login"
           else if restricted_agent JSON_parse ls && negb allow
                then "/add-property" else location
       | None =>
           if negb (has_token ls) then "/admin/login"
           else if restricted_agent JSON_parse ls
                then "/add-property" else "/dashboard"
       end).
Proof.
  assert (Hlogin : find_route matches "/admin/login" = Some Bare).
  { apply find_route_self. unfold routes; simpl; tauto. }
  assert (Hdash : find_route matches "/dashboard" = Some (Protected false)).
  { apply find_route_self. unfold routes; simpl; tauto. }
  assert (Hadd : find_route matches "/add-property" = Some (Protected true)).
  { apply find_route_self. unfold routes; simpl; tauto. }
  assert (Hguard : forall allow,
             ProtectedRoute JSON_parse ls allow
             = if negb (has_token ls) then Navigate "/admin/login"
               else if restricted_agent JSON_parse ls && negb allow
                    then Navigate "/add-property" else Children)
    by reflexivity.
  assert (Hat_login : land JSON_parse matches 0 ls "/admin/login"
                      = Some "/admin/login").
  { unfold land, render_at. rewrite Hlogin. reflexivity. }
  assert (Hat_add : has_token ls = true ->
                    land JSON_parse matches 0 ls "/add-property"
                    = Some "/add-property").
  { intros Ht. unfold land, render_at. rewrite Hadd. simpl.
    rewrite Hguard, Ht, andb_false_r. reflexivity. }
  assert (Hmore : forall n l, land JSON_parse matches 0 ls l = Some l ->
                              land JSON_parse matches n ls l = Some l).
  { intros n l. destruct n; simpl; destruct (render_at _ _ ls l); congruence. }
  assert (Hat_dash : land JSON_parse matches 1 ls "/dashboard"
                     = Some (if negb (has_token ls) then "/admin/login"
                             else if restricted_agent JSON_parse ls
                                  then "/add-property" else "/dashboard")).
  { rewrite land_step. unfold render_at at 1. rewrite Hdash.
    cbn [render_route]. rewrite Hguard. destruct (has_token ls) eqn:Ht;
      cbn [negb andb].
    - destruct (restricted_agent JSON_parse ls); cbn [negb andb];
        [apply Hat_add; first [exact Ht | reflexivity] | reflexivity].
    - exact Hat_login. }
  rewrite land_step. unfold render_at at 1.
  destruct (find_route matches location) as [[| allow] |]; cbn [render_route].
  - reflexivity.
  - rewrite Hguard. destruct (has_token ls) eqn:Ht; cbn [negb].
    + destruct (restricted_agent JSON_parse ls && negb allow);
        [apply Hmore, Hat_add; first [exact Ht | reflexivity] | reflexivity].
    + apply Hmore, Hat_login.
  - exact Hat_dash.
Qed.

End Redirects.

Lemma redirects_settle_witness :
  (forall path, In path (List.map fst routes) -> String.eqb path path = true)
  /\ (forall path path' location,
        In path (List.map fst routes) -> In path' (List.map fst routes) ->
        String.eqb path location = true -> String.eqb path' location = true ->
        path = path')
  /\ land Samples.parse_agent String.eqb 2 Samples.session "/no/such/page"
     = Some "/add-property".
Proof.
  assert (Hself : forall path,
             In path (List.map fst routes) -> String.eqb path path = true).
  { intros path _. apply String.eqb_refl. }
  assert (Hone : forall path path' location,
             In path (List.map fst routes) -> In path' (List.map fst routes) ->
             String.eqb path location = true -> String.eqb path' location = true ->
             path = path').
  { intros path path' location _ _ H1 H2.
    apply String.eqb_eq in H1, H2. congruence. }
  split; [exact Hself |]. split; [exact Hone |].
  exact (redirects_settle Samples.parse_agent String.eqb Hself Hone
           Samples.session "/no/such/page").
Defined.

End GateProperties.

(* ===================================================================== *)
(** ** Further properties: the cached lists *)
(* ===================================================================== *)

Module CacheProperties.
Import Vocabulary.

Lemma user_of_response_defined (dates : jsval -> option string) (raw : jsval) :
  nullish raw = false ->
  exists u, AllClients.user_of_response dates raw = Some u
            /\ AllClients.id u = opt_get raw "id"
            /\ AllClients.status u
               = (if truthy (opt_get raw "isBlocked")
                  then JStr "Blocked" else JStr "Active").
Proof.
  destruct raw; try discriminate; intros _;
    (eexists; split; [reflexivity | split; reflexivity]).
Qed.

Lemma user_of_response_nullish (dates : jsval -> option string) (raw : jsval) :
  nullish raw = true -> AllClients.user_of_response dates raw = None.
Proof. destruct raw; try discriminate; reflexivity. Qed.

Lemma user_of_response_is_Some (dates : jsval -> option string) (raw : jsval) :
  is_Some (AllClients.user_of_response dates raw) <-> nullish raw = false.
Proof.
  split.
  - intros [u Hu]. destruct (nullish raw) eqn:Hn; [| reflexivity].
    rewrite user_of_response_nullish in Hu by assumption. discriminate.
  - intros Hn. destruct (user_of_response_defined dates raw Hn) as [u [Hu _]].
    exists u. exact Hu.
Qed.

(** X8. A fulfilled refresh of the client list whose payload carries a
    [users] array without null elements installs exactly that snapshot:
    one row per element, in the order of the payload, each with the
    element's id and with status Blocked or Active according to the
    element's [isBlocked]; nothing of the previous list survives, the
    loading flag is lowered and storage is not touched. *)
Theorem refresh_installs_snapshot
    (dates : jsval -> option string) (type_error_message : string)
    (data : jsval) (l : list jsval) (w : AllClients.world) :
  get data "users" = Some (JArr l) ->
  Forall (fun raw => nullish raw = false) l ->
  let w' := AllClients.fetchUsers_settle dates type_error_message (Fulfilled data) w in
  List.length (AllClients.users w') = List.length l
  /\ AllClients.loading w' = false
  /\ AllClients.storage w' = AllClients.storage w
  /\ forall (i : nat) (raw : jsval),
       l !! i = Some raw ->
       exists u, AllClients.users w' !! i = Some u
                 /\ AllClients.id u = opt_get raw "id"
                 /\ AllClients.status u
                    = (if truthy (opt_get raw "isBlocked")
                       then JStr "Blocked" else JStr "Active").
Proof.
  intros Husers Hl. cbn zeta.
  assert (Hsome : is_Some (mapM (AllClients.user_of_response dates) l)).
  { apply mapM_is_Some. eapply Forall_impl; [exact Hl |].
    intros raw Hraw. apply user_of_response_is_Some. exact Hraw. }
  destruct Hsome as [us Hus].
  unfold AllClients.fetchUsers_settle, AllClients.users_of_response.
  rewrite Husers. simpl. rewrite Hus. simpl.
  split; [symmetry; apply (length_mapM _ _ _ Hus) |].
  split; [reflexivity |]. split; [reflexivity |].
  intros i raw Hi.
  apply mapM_Some_1 in Hus.
  destruct (Forall2_lookup_l _ _ _ _ _ Hus Hi) as [u [Hu Hraw]].
  exists u. split; [exact Hu |].
  assert (Hn : nullish raw = false).
  { apply (user_of_response_is_Some dates). exists u. exact Hraw. }
  destruct (user_of_response_defined dates raw Hn) as [u' [Hu' Hfacts]].
  rewrite Hraw in Hu'. inversion Hu'; subst u'. exact Hfacts.
Qed.

Lemma refresh_installs_snapshot_witness :
  get Samples.list_reply "users" = Some (JArr [Samples.raw_alice; Samples.raw_bob])
  /\ Forall (fun raw => nullish raw = false) [Samples.raw_alice; Samples.raw_bob]
  /\ List.length
       (AllClients.users
          (AllClients.fetchUsers_settle Samples.dates Samples.engine_message
             (Fulfilled Samples.list_reply) (AllClients.mount Samples.session)))
     = 2%nat.
Proof.
  assert (Hl : Forall (fun raw => nullish raw = false)
                 [Samples.raw_alice; Samples.raw_bob]).
  { repeat constructor. }
  split; [reflexivity |]. split; [exact Hl |].
  apply (refresh_installs_snapshot Samples.dates Samples.engine_message
           Samples.list_reply [Samples.raw_alice; Samples.raw_bob]
           (AllClients.mount Samples.session) eq_refl Hl).
Defined.

(** X9. The payload of a list refresh is usable exactly when its [users]
    property is an array none of whose elements is [null] or
    [undefined]. With any other payload a fulfilled refresh ends like a
    failed one: the list and storage stay as they were and the loading
    flag is lowered. *)
Theorem refresh_payload_usable_iff
    (dates : jsval -> option string) (type_error_message : string)
    (data : jsval) (w : AllClients.world) :
  (is_Some (AllClients.users_of_response dates data)
   <-> exists l, get data "users" = Some (JArr l)
                 /\ Forall (fun raw => nullish raw = false) l)
  /\ (AllClients.users_of_response dates data = None ->
      let w' := AllClients.fetchUsers_settle dates type_error_message
                  (Fulfilled data) w in
      AllClients.users w' = AllClients.users w
      /\ AllClients.storage w' = AllClients.storage w
      /\ AllClients.loading w' = false).
Proof.
  split.
  - unfold AllClients.users_of_response. split.
    + intros [us Hus].
      destruct (get data "users") as [v |]; [| discriminate]. simpl in Hus.
      destruct v; try discriminate.
      eexists; split; [reflexivity |].
      assert (Hsome : is_Some (mapM (AllClients.user_of_response dates) elems))
        by (exists us; exact Hus).
      apply mapM_is_Some in Hsome.
      eapply Forall_impl; [exact Hsome |].
      intros raw Hraw. apply (user_of_response_is_Some dates). exact Hraw.
    + intros [l [-> Hl]]. simpl. apply mapM_is_Some.
      eapply Forall_impl; [exact Hl |].
      intros raw Hraw. apply user_of_response_is_Some. exact Hraw.
  - intros Hnone. cbn zeta. unfold AllClients.fetchUsers_settle.
    rewrite Hnone. repeat split; reflexivity.
Qed.

(** X10. The client page read its token once, at mount. After a refresh
    was answered with status 401 the stored token is gone, but the page
    goes on using its own copy: the next refresh and the next block
    action are not turned away and carry the old token. *)
Theorem expired_token_still_sent
    (API_URL : jsval) (dates : jsval -> option string) (type_error_message : string)
    (e : js_error) (userId : jsval) (w : AllClients.world) :
  status_is_401 e = true ->
  truthy (AllClients.token w) = true ->
  truthy userId = true ->
  let w' := AllClients.fetchUsers_settle dates type_error_message (Rejected e) w in
  has_token (AllClients.storage w') = false
  /\ snd (AllClients.fetchUsers API_URL w') = Some AllClients.FetchUsers
  /\ List.last (AllClients.network (fst (AllClients.fetchUsers API_URL w')))
       {| req_method := GET; req_url := ""; req_authorization := None |}
     = {| req_method := GET;
          req_url := toStr API_URL +:+ "/api/users/list?role=user";
          req_authorization := Some ("Bearer " +:+ toStr (AllClients.token w)) |}
  /\ List.last (AllClients.network (fst (AllClients.toggleBlock API_URL userId w')))
       {| req_method := GET; req_url := ""; req_authorization := None |}
     = block_request API_URL (AllClients.token w) userId.
Proof.
  intros H401 Htok Hid. cbn zeta.
  unfold AllClients.fetchUsers_settle, AllClients.fetchUsers_catch.
  rewrite H401.
  unfold AllClients.fetchUsers, AllClients.toggleBlock. simpl.
  rewrite Htok, Hid. simpl.
  split; [apply SessionProperties.no_token_after_remove |].
  split; [reflexivity |].
  split; apply List.last_last.
Qed.

Lemma expired_token_still_sent_witness :
  status_is_401 Samples.unauthorized = true
  /\ truthy (AllClients.token (AllClients.now Samples.loaded)) = true
  /\ truthy (JStr "u1") = true
  /\ has_token
       (AllClients.storage
          (AllClients.fetchUsers_settle Samples.dates Samples.engine_message
             (Rejected Samples.unauthorized) (AllClients.now Samples.loaded)))
     = false.
Proof.
  split; [reflexivity |]. split; [reflexivity |]. split; [reflexivity |].
  apply (expired_token_still_sent Samples.api Samples.dates Samples.engine_message
           Samples.unauthorized (JStr "u1") (AllClients.now Samples.loaded));
    reflexivity.
Defined.

End CacheProperties.

(* ===================================================================== *)
(** ** Further properties: block and unblock over time *)
(* ===================================================================== *)

Module AnswerProperties.
Import Vocabulary.

(** X11. The block action never touches the stored session, whatever
    the answer, a 401 included; and a rejected block request changes
    neither the list nor the drawer's row. Both pages. *)
Theorem block_answer_keeps_session
    (type_error_message : string) (userId : jsval) (seen : option AllClients.user)
    (o : settled) (e : js_error)
    (w : AllClients.world) (wo : BuilderVerification.world) :
  let w' := AllClients.toggleBlock_settle type_error_message userId seen o w in
  let wo' := BuilderVerification.toggleBlock_settle type_error_message userId o wo in
  let wr := AllClients.toggleBlock_settle type_error_message userId seen
              (Rejected e) w in
  let wor := BuilderVerification.toggleBlock_settle type_error_message userId
               (Rejected e) wo in
  (AllClients.storage w' = AllClients.storage w
   /\ AllClients.token w' = AllClients.token w
   /\ BuilderVerification.storage wo' = BuilderVerification.storage wo)
  /\ (AllClients.users wr = AllClients.users w
      /\ AllClients.selectedUser wr = AllClients.selectedUser w
      /\ BuilderVerification.users wor = BuilderVerification.users wo).
Proof.
  cbn zeta. split; [| repeat split].
  unfold AllClients.toggleBlock_settle, BuilderVerification.toggleBlock_settle.
  destruct o as [data | err]; [| repeat split].
  destruct (get data "message") as [m |]; [| repeat split].
  destruct seen as [sel |]; [destruct (strict_eq (AllClients.id sel) userId) |];
    repeat split.
Qed.

Lemma strict_eq_shared (x a b : jsval) :
  strict_eq x a = true -> strict_eq x b = true -> strict_eq a b = true.
Proof.
  destruct x, a; simpl; try discriminate; destruct b; simpl; try discriminate;
    try reflexivity.
  - destruct b0, b1, b; simpl; congruence.
  - rewrite !Z.eqb_eq. congruence.
  - rewrite !String.eqb_eq. congruence.
Qed.

Lemma patch_users_last_wins (userId s1 s2 : jsval) (l : list AllClients.user) :
  AllClients.patch_users userId s2 (AllClients.patch_users userId s1 l)
  = AllClients.patch_users userId s2 l.
Proof.
  unfold AllClients.patch_users. rewrite List.map_map. apply List.map_ext.
  intros u. destruct (strict_eq (AllClients.id u) userId) eqn:Hu; simpl;
    rewrite Hu; reflexivity.
Qed.

Lemma patch_users_commute (a b s t : jsval) (l : list AllClients.user) :
  strict_eq a b = false ->
  AllClients.patch_users a s (AllClients.patch_users b t l)
  = AllClients.patch_users b t (AllClients.patch_users a s l).
Proof.
  intros Hab. unfold AllClients.patch_users. rewrite !List.map_map.
  apply List.map_ext. intros u.
  destruct (strict_eq (AllClients.id u) a) eqn:Ha;
    destruct (strict_eq (AllClients.id u) b) eqn:Hb; simpl;
    rewrite ?Ha, ?Hb; try reflexivity.
  rewrite (strict_eq_shared _ _ _ Ha Hb) in Hab. discriminate.
Qed.

Lemma users_after_answer (type_error_message : string) (userId data : jsval)
    (seen : option AllClients.user) (w : AllClients.world) :
  nullish data = false ->
  AllClients.users
    (AllClients.toggleBlock_settle type_error_message userId seen (Fulfilled data) w)
  = AllClients.patch_users userId (AllClients.status_of_reply data)
      (AllClients.users w).
Proof.
  intros Hdata. unfold AllClients.toggleBlock_settle.
  destruct (ModerationProperties.get_not_nullish data "message" Hdata) as [m ->].
  destruct seen as [sel |]; [destruct (strict_eq (AllClients.id sel) userId) |];
    reflexivity.
Qed.

(** X12. How answers to block requests compose on the client list: of
    two answers for the same id the later one decides the status, and
    answers for two different ids give the same list in either order of
    arrival. *)
Theorem block_answers_compose
    (type_error_message : string) (a b d1 d2 : jsval)
    (seen1 seen2 : option AllClients.user) (w : AllClients.world) :
  nullish d1 = false ->
  nullish d2 = false ->
  let answer id seen d :=
    AllClients.toggleBlock_settle type_error_message id seen (Fulfilled d) in
  AllClients.users (answer a seen2 d2 (answer a seen1 d1 w))
    = AllClients.users (answer a seen2 d2 w)
  /\ (strict_eq a b = false ->
      AllClients.users (answer a seen1 d1 (answer b seen2 d2 w))
      = AllClients.users (answer b seen2 d2 (answer a seen1 d1 w))).
Proof.
  intros H1 H2. cbv beta zeta. rewrite !users_after_answer by assumption. split.
  - apply patch_users_last_wins.
  - intros Hab. apply patch_users_commute. exact Hab.
Qed.

Lemma block_answers_compose_witness :
  nullish Samples.blocked_reply = false
  /\ AllClients.users
       (AllClients.toggleBlock_settle Samples.engine_message (JStr "u1") None
          (Fulfilled Samples.blocked_reply)
          (AllClients.toggleBlock_settle Samples.engine_message (JStr "u1") None
             (Fulfilled Samples.blocked_reply) (AllClients.now Samples.loaded)))
     = AllClients.users
         (AllClients.toggleBlock_settle Samples.engine_message (JStr "u1") None
            (Fulfilled Samples.blocked_reply) (AllClients.now Samples.loaded)).
Proof.
  split; [reflexivity |].
  apply (block_answers_compose Samples.engine_message (JStr "u1") (JStr "u2")
           Samples.blocked_reply Samples.blocked_reply None None
           (AllClients.now Samples.loaded)); reflexivity.
Defined.

(** X13. An answer for an id that no row of the list carries (the row
    went away with a refresh in between) leaves the list as it is; no
    row is added for it. *)
Theorem answer_for_absent_row
    (type_error_message : string) (userId data : jsval)
    (seen : option AllClients.user) (w : AllClients.world) :
  nullish data = false ->
  Forall (fun u => strict_eq (AllClients.id u) userId = false) (AllClients.users w) ->
  AllClients.users
    (AllClients.toggleBlock_settle type_error_message userId seen (Fulfilled data) w)
  = AllClients.users w.
Proof.
  intros Hdata Habsent. rewrite users_after_answer by assumption.
  unfold AllClients.patch_users.
  induction Habsent as [| u l Hu _ IH]; simpl; [reflexivity |].
  rewrite Hu, IH. reflexivity.
Qed.

Lemma answer_for_absent_row_witness :
  nullish Samples.blocked_reply = false
  /\ Forall (fun u => strict_eq (AllClients.id u) (JStr "u9") = false)
       (AllClients.users (AllClients.now Samples.loaded))
  /\ AllClients.users
       (AllClients.toggleBlock_settle Samples.engine_message (JStr "u9") None
          (Fulfilled Samples.blocked_reply) (AllClients.now Samples.loaded))
     = AllClients.users (AllClients.now Samples.loaded).
Proof.
  assert (Habsent : Forall (fun u => strict_eq (AllClients.id u) (JStr "u9") = false)
                      (AllClients.users (AllClients.now Samples.loaded))).
  { repeat constructor. }
  split; [reflexivity |]. split; [exact Habsent |].
  apply (answer_for_absent_row Samples.engine_message (JStr "u9")
           Samples.blocked_reply None (AllClients.now Samples.loaded) eq_refl Habsent).
Defined.

Lemma status_known_after_settle
    (dates : jsval -> option string) (type_error_message : string)
    (t : AllClients.task) (o : settled) (w : AllClients.world) :
  Forall (fun u => AllClients.status u = JStr "Active"
                   \/ AllClients.status u = JStr "Blocked") (AllClients.users w) ->
  Forall (fun u => AllClients.status u = JStr "Active"
                   \/ AllClients.status u = JStr "Blocked")
    (AllClients.users (AllClients.settle dates type_error_message t o w)).
Proof.
  intros Hinv. destruct t as [| userId seen]; simpl.
  - unfold AllClients.fetchUsers_settle.
    assert (Hcatch : forall e, AllClients.users (AllClients.fetchUsers_catch e w)
                               = AllClients.users w).
    { intros e. apply SessionProperties.fetchUsers_catch_users. }
    destruct o as [data | e]; [| rewrite Hcatch; exact Hinv].
    destruct (AllClients.users_of_response dates data) as [us |] eqn:Hus;
      [| rewrite Hcatch; exact Hinv].
    simpl. unfold AllClients.users_of_response in Hus.
    destruct (get data "users") as [v |]; [| discriminate]. simpl in Hus.
    destruct v; try discriminate.
    apply mapM_Some_1 in Hus. clear -Hus.
    induction Hus as [| raw u l k Hraw _ IH]; constructor; [| exact IH].
    assert (Hn : nullish raw = false).
    { apply (CacheProperties.user_of_response_is_Some dates). exists u. exact Hraw. }
    destruct (CacheProperties.user_of_response_defined dates raw Hn)
      as [u' [Hu' [_ Hst]]].
    rewrite Hraw in Hu'. inversion Hu'; subst u'. rewrite Hst.
    destruct (truthy (opt_get raw "isBlocked")); [right | left]; reflexivity.
  - destruct o as [data | e]; [| exact Hinv].
    destruct (nullish data) eqn:Hdata.
    + unfold AllClients.toggleBlock_settle.
      destruct data; try discriminate; exact Hinv.
    + rewrite users_after_answer by assumption.
      unfold AllClients.patch_users, AllClients.status_of_reply.
      induction Hinv as [| u l Hu _ IH]; simpl; constructor; [| exact IH].
      destruct (strict_eq (AllClients.id u) userId); [| exact Hu].
      simpl. destruct (truthy (opt_get data "isBlocked")); [right | left]; reflexivity.
Qed.

Lemma users_unless_settled
    (API_URL : jsval) (dates : jsval -> option string) (type_error_message : string)
    (p : AllClients.page) (e : AllClients.event) :
  match e with
  | AllClients.Settles _ _ => True
  | _ =>
      AllClients.users (AllClients.now
        (AllClients.step API_URL dates type_error_message p e))
        = AllClients.users (AllClients.now p)
      /\ AllClients.storage (AllClients.now
           (AllClients.step API_URL dates type_error_message p e))
         = AllClients.storage (AllClients.now p)
  end.
Proof.
  destruct e as [userId | | u | | | n o]; simpl; try exact I.
  - unfold AllClients.toggleBlock.
    destruct (truthy userId); simpl; [destruct (truthy _) |]; split; reflexivity.
  - destruct (AllClients.selectedUser (AllClients.now p)) as [sel |];
      [| split; reflexivity].
    destruct (AllClients.drawerOpen (AllClients.now p) && truthy (AllClients.id sel));
      [| split; reflexivity].
    unfold AllClients.toggleBlock.
    destruct (truthy (AllClients.id sel)); simpl; [destruct (truthy _) |];
      split; reflexivity.
  - split; reflexivity.
  - split; reflexivity.
  - destruct (AllClients.loading (AllClients.now p)); [split; reflexivity |].
    unfold AllClients.fetchUsers.
    destruct (truthy _); split; reflexivity.
Qed.

(** X14. On the client page, from mount on and through any sequence of
    clicks and answers, every row of the list has status Active or
    Blocked, so the badge and the Block / Unblock button of a row always
    have a defined reading. *)
Theorem statuses_stay_known
    (API_URL : jsval) (dates : jsval -> option string) (type_error_message : string)
    (ls : localStorage) (es : list AllClients.event) :
  Forall (fun u => AllClients.status u = JStr "Active"
                   \/ AllClients.status u = JStr "Blocked")
    (AllClients.users (AllClients.now
       (AllClients.run API_URL dates type_error_message
          (AllClients.mounted API_URL ls) es))).
Proof.
  assert (Hgen : forall es p,
             Forall (fun u => AllClients.status u = JStr "Active"
                              \/ AllClients.status u = JStr "Blocked")
               (AllClients.users (AllClients.now p)) ->
             Forall (fun u => AllClients.status u = JStr "Active"
                              \/ AllClients.status u = JStr "Blocked")
               (AllClients.users (AllClients.now
                  (AllClients.run API_URL dates type_error_message p es)))).
  { clear es. induction es as [| e es IH]; intros p Hp; [exact Hp |].
    simpl. apply IH.
    pose proof (users_unless_settled API_URL dates type_error_message p e) as Hstep.
    destruct e as [userId | | u | | | n o].
    1-5: destruct Hstep as [Hsame _]; rewrite Hsame; exact Hp.
    simpl. destruct (AllClients.inflight p !! n) as [t |]; [| exact Hp].
    simpl. apply status_known_after_settle. exact Hp. }
  apply Hgen. unfold AllClients.mounted, AllClients.started, AllClients.fetchUsers,
    AllClients.mount. simpl.
  destruct (truthy (getItem ls "adminToken")); constructor.
Qed.

(** X15. The page writes nothing ahead of the service: a click (Block,
    the drawer's Block, View, closing the drawer, Refresh) changes
    neither the list nor storage; only the answer to a request does. *)
Theorem clicks_change_no_data
    (API_URL : jsval) (dates : jsval -> option string) (type_error_message : string)
    (p : AllClients.page) (e : AllClients.event) :
  let p' := AllClients.step API_URL dates type_error_message p e in
  match e with
  | AllClients.Settles n o =>
      AllClients.inflight p !! n = None -> p' = p
  | _ =>
      AllClients.users (AllClients.now p') = AllClients.users (AllClients.now p)
      /\ AllClients.storage (AllClients.now p') = AllClients.storage (AllClients.now p)
  end.
Proof.
  cbn zeta.
  pose proof (users_unless_settled API_URL dates type_error_message p e) as Hstep.
  destruct e as [userId | | u | | | n o]; try exact Hstep.
  simpl. intros ->. reflexivity.
Qed.

End AnswerProperties.

(* ===================================================================== *)
(** ** Further properties: searching the lists *)
(* ===================================================================== *)

Module SearchProperties.
Import Vocabulary.

(** *** The sample lower-casing has the properties assumed of the
    engine's *)

Lemma lower_byte_idempotent (c : ascii) :
  Samples.lower_byte (Samples.lower_byte c) = Samples.lower_byte c.
Proof. destruct c as [[] [] [] [] [] [] [] []]; reflexivity. Qed.

Lemma lower_idempotent (s : string) :
  Samples.lower (Samples.lower s) = Samples.lower s.
Proof.
  induction s as [| c s IH]; simpl; [reflexivity |].
  rewrite lower_byte_idempotent, IH. reflexivity.
Qed.

Lemma lower_append (a b : string) :
  Samples.lower (a +:+ b) = Samples.lower a +:+ Samples.lower b.
Proof.
  induction a as [| c a IH]; [reflexivity |].
  rewrite ExportProperties.append_cons. simpl. rewrite IH. reflexivity.
Qed.

Lemma lower_byte_plain (c : ascii) :
  plain_char c = true -> Samples.lower_byte c = c.
Proof.
  destruct c as [[] [] [] [] [] [] [] []]; vm_compute; intros H;
    first [reflexivity | discriminate H].
Qed.

Lemma lower_plain (s : string) :
  plain_text s = true -> Samples.lower s = s.
Proof.
  induction s as [| c s IH]; simpl; [reflexivity |].
  intros H. apply andb_true_iff in H. destruct H as [Hc Hs].
  rewrite lower_byte_plain, IH by assumption. reflexivity.
Qed.

Lemma lower_keeps_plain_text : keeps_plain_text Samples.lower.
Proof.
  intros before s after Hs.
  exists (Samples.lower before), (Samples.lower after).
  rewrite !lower_append, (lower_plain s Hs).
  split; [reflexivity |]. split; intros ->; reflexivity.
Qed.

(** X16. Searching ignores the case of the query: a query and its
    lower-case form select the same rows, on the client list and on the
    owner list. Of the engine's lower-casing this uses that it leaves
    the empty string empty and that lower-casing twice is lower-casing
    once. *)
Theorem search_ignores_query_case
    (toLowerCase : string -> string)
    (users : list AllClients.user) (owners : list BuilderVerification.owner)
    (query statusFilter : string) :
  toLowerCase "" = "" ->
  (forall s, toLowerCase (toLowerCase s) = toLowerCase s) ->
  AllClients.filtered toLowerCase users query statusFilter
    = AllClients.filtered toLowerCase users (toLowerCase query) statusFilter
  /\ BuilderVerification.filteredOwners toLowerCase owners query statusFilter
    = BuilderVerification.filteredOwners toLowerCase owners (toLowerCase query)
        statusFilter.
Proof.
  intros Hempty Hidem.
  unfold AllClients.filtered, BuilderVerification.filteredOwners.
  split; apply List.filter_ext; intros u.
  - rewrite !FilterProperties.client_keep_spec, Hidem. reflexivity.
  - rewrite !(FilterProperties.owner_keep_spec toLowerCase Hempty), Hidem.
    reflexivity.
Qed.

Lemma search_ignores_query_case_witness :
  Samples.lower "" = ""
  /\ (forall s, Samples.lower (Samples.lower s) = Samples.lower s)
  /\ AllClients.filtered Samples.lower [Samples.alice; Samples.bob] "BOB" "All"
     = AllClients.filtered Samples.lower [Samples.alice; Samples.bob]
         (Samples.lower "BOB") "All".
Proof.
  split; [reflexivity |]. split; [exact lower_idempotent |].
  exact (proj1 (search_ignores_query_case Samples.lower
                  [Samples.alice; Samples.bob] [Samples.owner_alice] "BOB" "All"
                  eq_refl lower_idempotent)).
Defined.

Lemma contains_middle (a t b : string) : contains (a +:+ t +:+ b) t.
Proof. exists a, b. reflexivity. Qed.

Lemma kept_text_is_found (toLowerCase : string -> string) (a s b : string) :
  keeps_plain_text toLowerCase ->
  plain_text s = true ->
  includes (toLowerCase (a +:+ s +:+ b)) s = true.
Proof.
  intros Hkeeps Hs. apply FilterProperties.includes_spec.
  destruct (Hkeeps a s b Hs) as [a' [b' [-> _]]]. apply contains_middle.
Qed.

Lemma plain_text_is_kept (toLowerCase : string -> string) (s : string) :
  keeps_plain_text toLowerCase ->
  plain_text s = true ->
  toLowerCase s = s.
Proof.
  intros Hkeeps Hs.
  destruct (Hkeeps "" s "" Hs) as [a' [b' [Heq [Ha Hb]]]].
  rewrite (Ha eq_refl), (Hb eq_refl) in Heq.
  change ("" +:+ s +:+ "") with (s +:+ "") in Heq.
  rewrite ExportProperties.append_empty_r in Heq. exact Heq.
Qed.

(** X18. Two edges of the search text. The four fields are joined by
    single spaces, so a query of one space selects every row that passes
    the status selection. A field that is [undefined] is searched as the
    word it prints as, so a row without a phone is selected by every
    query whose lower-case form is that word. Of the engine's
    lower-casing this uses that it keeps plain text (ASCII without
    capitals) in place. *)
Theorem search_text_edges
    (toLowerCase : string -> string)
    (statusFilter query : string)
    (u : AllClients.user) (o : BuilderVerification.owner) :
  keeps_plain_text toLowerCase ->
  AllClients.keep toLowerCase " " statusFilter u = client_status_passes statusFilter u
  /\ BuilderVerification.keep toLowerCase " " statusFilter o
     = owner_status_passes statusFilter o
  /\ (AllClients.phone u = JUndefined -> toLowerCase query = "undefined" ->
      AllClients.keep toLowerCase query "All" u = true)
  /\ (BuilderVerification.phone o = JUndefined -> toLowerCase query = "undefined" ->
      BuilderVerification.keep toLowerCase query "all" o = true).
Proof.
  intros Hkeeps.
  assert (Hempty : toLowerCase "" = "")
    by (apply plain_text_is_kept; [exact Hkeeps | reflexivity]).
  assert (Hsp : toLowerCase " " = " ")
    by (apply plain_text_is_kept; [exact Hkeeps | reflexivity]).
  pose proof (FilterProperties.owner_keep_spec toLowerCase Hempty) as Hown.
  split; [| split; [| split]].
  - rewrite FilterProperties.client_keep_spec, Hsp. unfold AllClients.search_text.
    rewrite (kept_text_is_found toLowerCase _ " " _ Hkeeps eq_refl).
    apply andb_true_r.
  - rewrite Hown, Hsp. unfold BuilderVerification.search_text.
    rewrite (kept_text_is_found toLowerCase _ " " _ Hkeeps eq_refl).
    apply andb_true_r.
  - intros Hphone Hq. rewrite FilterProperties.client_keep_spec, Hq.
    unfold AllClients.search_text. rewrite Hphone.
    change (toStr JUndefined) with "undefined".
    replace (toStr (AllClients.name u) +:+ " " +:+ toStr (AllClients.email u)
               +:+ " " +:+ "undefined" +:+ " " +:+ toStr (AllClients.role u))
      with ((toStr (AllClients.name u) +:+ " " +:+ toStr (AllClients.email u) +:+ " ")
              +:+ "undefined" +:+ (" " +:+ toStr (AllClients.role u)))
      by (rewrite !ExportProperties.append_assoc; reflexivity).
    rewrite (kept_text_is_found toLowerCase _ "undefined" _ Hkeeps eq_refl).
    reflexivity.
  - intros Hphone Hq. rewrite Hown, Hq.
    unfold BuilderVerification.search_text. rewrite Hphone.
    change (toStr JUndefined) with "undefined".
    replace (toStr (BuilderVerification.name o) +:+ " "
               +:+ toStr (BuilderVerification.email o)
               +:+ " " +:+ "undefined" +:+ " " +:+ toStr (BuilderVerification.role o))
      with ((toStr (BuilderVerification.name o) +:+ " "
               +:+ toStr (BuilderVerification.email o) +:+ " ")
              +:+ "undefined" +:+ (" " +:+ toStr (BuilderVerification.role o)))
      by (rewrite !ExportProperties.append_assoc; reflexivity).
    rewrite (kept_text_is_found toLowerCase _ "undefined" _ Hkeeps eq_refl).
    reflexivity.
Qed.

Lemma search_text_edges_witness :
  keeps_plain_text Samples.lower
  /\ AllClients.keep Samples.lower " " "Blocked" Samples.alice
     = client_status_passes "Blocked" Samples.alice.
Proof.
  split; [exact lower_keeps_plain_text |].
  exact (proj1 (search_text_edges Samples.lower "Blocked" "UNDEFINED"
                  Samples.alice Samples.owner_alice lower_keeps_plain_text)).
Defined.

(** X19. Block, then filter. Once the service confirmed that an id is
    blocked, every row with that id is shown under the Blocked selection
    (with an empty query) and none under Active; the rows with other ids
    are selected as before. *)
Theorem confirmed_block_moves_row
    (toLowerCase : string -> string)
    (type_error_message : string) (userId data : jsval)
    (seen : option AllClients.user) (w : AllClients.world) (u : AllClients.user) :
  toLowerCase "" = "" ->
  nullish data = false ->
  truthy (opt_get data "isBlocked") = true ->
  In u (AllClients.users w) ->
  let after := AllClients.users
                 (AllClients.toggleBlock_settle type_error_message userId seen
                    (Fulfilled data) w) in
  if strict_eq (AllClients.id u) userId
  then In (AllClients.with_status u (JStr "Blocked"))
          (AllClients.filtered toLowerCase after "" "Blocked")
       /\ Forall (fun v => strict_eq (AllClients.id v) userId = false)
                 (AllClients.filtered toLowerCase after "" "Active")
  else forall statusFilter,
         In u (AllClients.filtered toLowerCase after "" statusFilter)
         <-> In u (AllClients.filtered toLowerCase (AllClients.users w) "" statusFilter).
Proof.
  intros Hempty Hdata Hblocked Hin. cbn zeta.
  rewrite AnswerProperties.users_after_answer by assumption.
  unfold AllClients.status_of_reply. rewrite Hblocked.
  unfold AllClients.filtered, AllClients.patch_users.
  destruct (strict_eq (AllClients.id u) userId) eqn:Hu.
  - split.
    + apply List.filter_In. split.
      * apply List.in_map_iff. exists u. rewrite Hu. split; [reflexivity | exact Hin].
      * rewrite FilterProperties.client_keep_spec.
        rewrite Hempty. unfold client_status_passes. simpl.
        apply FilterProperties.includes_empty.
    + apply List.Forall_forall. intros v Hv.
      apply List.filter_In in Hv. destruct Hv as [Hv Hkeep].
      apply List.in_map_iff in Hv. destruct Hv as [v0 [Hv0 _]].
      destruct (strict_eq (AllClients.id v0) userId) eqn:Hv0id; subst v.
      * rewrite FilterProperties.client_keep_spec in Hkeep.
        unfold client_status_passes in Hkeep. simpl in Hkeep. discriminate.
      * exact Hv0id.
  - intros statusFilter. rewrite !List.filter_In, List.in_map_iff. split.
    + intros [[v0 [Hv0 Hv0in]] Hkeep]. split; [exact Hin | exact Hkeep].
    + intros [_ Hkeep]. split; [| exact Hkeep].
      exists u. rewrite Hu. split; [reflexivity | exact Hin].
Qed.

Lemma confirmed_block_moves_row_witness :
  Samples.lower "" = ""
  /\ nullish Samples.blocked_reply = false
  /\ truthy (opt_get Samples.blocked_reply "isBlocked") = true
  /\ In Samples.alice (AllClients.users (AllClients.now Samples.loaded))
  /\ In (AllClients.with_status Samples.alice (JStr "Blocked"))
        (AllClients.filtered Samples.lower
           (AllClients.users
              (AllClients.toggleBlock_settle Samples.engine_message (JStr "u1") None
                 (Fulfilled Samples.blocked_reply) (AllClients.now Samples.loaded)))
           "" "Blocked").
Proof.
  assert (Hin : In Samples.alice (AllClients.users (AllClients.now Samples.loaded))).
  { left. reflexivity. }
  split; [reflexivity |]. split; [reflexivity |]. split; [reflexivity |].
  split; [exact Hin |].
  exact (proj1 (confirmed_block_moves_row Samples.lower Samples.engine_message
                  (JStr "u1") Samples.blocked_reply None
                  (AllClients.now Samples.loaded) Samples.alice
                  eq_refl eq_refl eq_refl Hin)).
Defined.

(** X20. On the owner page the badge and the action button follow the
    filter: every row shown under [blocked] carries the Blocked badge
    and the Unblock button, every row shown under [active] the Active
    badge and the Block button, and a row never shows both buttons or
    none. *)
Theorem owner_badge_follows_filter
    (toLowerCase : string -> string)
    (owners : list BuilderVerification.owner) (query : string) :
  Forall (fun u => snd (BuilderVerification.StatusBadge (BuilderVerification.isBlocked u))
                     = "Blocked"
                   /\ BuilderVerification.action_buttons u = ["Unblock"])
    (BuilderVerification.filteredOwners toLowerCase owners query "blocked")
  /\ Forall (fun u => snd (BuilderVerification.StatusBadge (BuilderVerification.isBlocked u))
                        = "Active"
                      /\ BuilderVerification.action_buttons u = ["Block"])
       (BuilderVerification.filteredOwners toLowerCase owners query "active")
  /\ Forall (fun u => List.length (BuilderVerification.action_buttons u) = 1%nat) owners.
Proof.
  unfold BuilderVerification.filteredOwners,
    BuilderVerification.StatusBadge, BuilderVerification.action_buttons.
  split; [| split]; apply List.Forall_forall; intros u Hu.
  - apply List.filter_In in Hu. destruct Hu as [_ Hkeep].
    apply FilterProperties.owner_keep_status in Hkeep.
    unfold owner_status_passes in Hkeep. simpl in Hkeep.
    destruct (truthy (BuilderVerification.isBlocked u)); [split; reflexivity |].
    discriminate.
  - apply List.filter_In in Hu. destruct Hu as [_ Hkeep].
    apply FilterProperties.owner_keep_status in Hkeep.
    unfold owner_status_passes in Hkeep. simpl in Hkeep.
    destruct (truthy (BuilderVerification.isBlocked u)); [discriminate |].
    split; reflexivity.
  - destruct (truthy (BuilderVerification.isBlocked u)); reflexivity.
Qed.

End SearchProperties.

(* ===================================================================== *)
(** ** Further properties: the export *)
(* ===================================================================== *)

Module ExportMoreProperties.
Import Vocabulary.

Lemma export_text_read (toLowerCase : string -> string) (w : AllClients.world) :
  let records :=
    column_labels
      :: List.map (fun u => List.map toStr (AllClients.export_row u))
           (AllClients.filtered toLowerCase (AllClients.users w) (AllClients.search w)
              (AllClients.statusFilter w)) in
  snd (snd (AllClients.exportCSV toLowerCase w)) = text records
  /\ Csv.read (text records) = Some records.
Proof.
  cbn zeta.
  set (visible := AllClients.filtered _ _ _ _).
  assert (Hrows : List.map (List.map toStr) (AllClients.rows visible)
                  = column_labels
                    :: List.map (fun u => List.map toStr (AllClients.export_row u)) visible).
  { unfold AllClients.rows. rewrite List.map_cons, List.map_map. reflexivity. }
  split.
  - unfold AllClients.exportCSV. cbn [snd]. fold visible.
    unfold AllClients.csv. rewrite ExportProperties.csv_of_rows_text, Hrows.
    reflexivity.
  - rewrite <- Hrows.
    pose proof (ExportProperties.export_row_not_empty visible) as Hne.
    destruct (List.map (List.map toStr) (AllClients.rows visible)) as [| r rs];
      [discriminate Hrows |].
    unfold Csv.read. rewrite ExportProperties.read_text by exact Hne. reflexivity.
Qed.

Lemma filter_all_in {A : Type} (f : A -> bool) (l : list A) :
  (forall x, In x l -> f x = true) -> List.filter f l = l.
Proof.
  induction l as [| x l IH]; simpl; intros Hf; [reflexivity |].
  rewrite (Hf x) by (left; reflexivity). rewrite IH; [reflexivity |].
  intros y Hy. apply Hf. right. exact Hy.
Qed.

Lemma read_text_any (records : list (list string)) :
  Forall (fun r => r <> []) records -> Csv.read (text records) = Some records.
Proof.
  destruct records as [| r records]; [reflexivity |].
  intros Hne. unfold Csv.read. rewrite ExportProperties.read_text by exact Hne.
  reflexivity.
Qed.

(** X21. The exported text is a table: every record a reader gets from
    it, the header included, has exactly ten fields. Exporting sends no
    request and changes neither the list, the filter, nor storage. *)
Theorem export_is_rectangular
    (toLowerCase : string -> string) (w : AllClients.world) :
  (exists records,
      Csv.read (snd (snd (AllClients.exportCSV toLowerCase w))) = Some records
      /\ Forall (fun r => List.length r = 10%nat) records)
  /\ AllClients.users (fst (AllClients.exportCSV toLowerCase w)) = AllClients.users w
  /\ AllClients.search (fst (AllClients.exportCSV toLowerCase w)) = AllClients.search w
  /\ AllClients.statusFilter (fst (AllClients.exportCSV toLowerCase w)) = AllClients.statusFilter w
  /\ AllClients.storage (fst (AllClients.exportCSV toLowerCase w)) = AllClients.storage w
  /\ AllClients.network (fst (AllClients.exportCSV toLowerCase w)) = AllClients.network w.
Proof.
  split; [| repeat split].
  destruct (export_text_read toLowerCase w) as [Htext Hread].
  eexists. split.
  - rewrite Htext. exact Hread.
  - constructor; [reflexivity |].
    apply List.Forall_forall. intros r Hr.
    apply List.in_map_iff in Hr. destruct Hr as [u [<- _]]. reflexivity.
Qed.

(** X22. The exported text determines what was exported: two views
    whose exports are the same text have, row by row, the same ten cell
    texts. *)
Theorem export_text_determines_cells (visible visible' : list AllClients.user) :
  AllClients.csv visible = AllClients.csv visible' ->
  List.map (fun u => List.map toStr (AllClients.export_row u)) visible
  = List.map (fun u => List.map toStr (AllClients.export_row u)) visible'.
Proof.
  intros Hsame.
  assert (Hread : forall v,
             Csv.read (AllClients.csv v)
             = Some (column_labels
                       :: List.map (fun u => List.map toStr (AllClients.export_row u)) v)).
  { intros v. unfold AllClients.csv.
    rewrite ExportProperties.csv_of_rows_text.
    rewrite read_text_any by apply ExportProperties.export_row_not_empty.
    unfold AllClients.rows. rewrite List.map_cons, List.map_map. reflexivity. }
  pose proof (Hread visible) as H1. pose proof (Hread visible') as H2.
  rewrite Hsame in H1. rewrite H1 in H2. injection H2 as H2. exact H2.
Qed.

Lemma export_text_determines_cells_witness :
  AllClients.csv [Samples.alice] = AllClients.csv [Samples.alice]
  /\ List.map (fun u => List.map toStr (AllClients.export_row u)) [Samples.alice]
     = List.map (fun u => List.map toStr (AllClients.export_row u)) [Samples.alice].
Proof.
  split; [reflexivity |].
  apply (export_text_determines_cells [Samples.alice] [Samples.alice]).
  reflexivity.
Defined.

End ExportMoreProperties.

(* ===================================================================== *)
(** ** Further properties: the listings page *)
(* ===================================================================== *)

Module ListingProperties.
Import AllProperty.

Lemma without_spec (id : jsval) (prev : list jsval) :
  Forall (fun p => nullish p = false) prev ->
  without id prev
  = Some (List.filter (fun p => negb (strict_eq (opt_get p "_id") id)) prev).
Proof.
  induction 1 as [| p prev Hp _ IH]; simpl; [reflexivity |].
  destruct p; try discriminate; simpl; rewrite IH; simpl; reflexivity.
Qed.

Lemma without_fails (id : jsval) (prev : list jsval) :
  Exists (fun p => nullish p = true) prev -> without id prev = None.
Proof.
  induction 1 as [p prev Hp | p prev _ IH]; simpl.
  - destruct p; try discriminate; reflexivity.
  - rewrite IH. destruct (get p "_id"); reflexivity.
Qed.

(** X23. A confirmed delete that the service accepted removes from the
    list exactly the listings whose [_id] is the deleted one: the rest
    stay, in their order. If the list holds a [null] or [undefined]
    entry the updater throws instead and the page is lost. Storage is
    not touched. *)
Theorem delete_removes_matching_listings
    (id : jsval) (reply : jsval) (w : world) :
  (Forall (fun p => nullish p = false) (properties w) ->
   exists w', handleDelete_settle id (Fulfilled reply) w = Some w'
     /\ properties w'
        = List.filter (fun p => negb (strict_eq (opt_get p "_id") id)) (properties w)
     /\ storage w' = storage w)
  /\ (Exists (fun p => nullish p = true) (properties w) ->
      handleDelete_settle id (Fulfilled reply) w = None).
Proof.
  unfold handleDelete_settle. split.
  - intros Hok. simpl. rewrite without_spec by exact Hok. simpl.
    eexists. repeat split.
  - intros Hbad. simpl. rewrite without_fails by exact Hbad. reflexivity.
Qed.

(** X24. Delete is idempotent on the list and harmless for other ids: a
    second accepted delete of the same id changes nothing more, and the
    delete of an id that no listing carries leaves the list as it is. *)
Theorem delete_twice_or_absent (id : jsval) (prev : list jsval) :
  Forall (fun p => nullish p = false) prev ->
  (exists kept, without id prev = Some kept
                /\ without id kept = Some kept
                /\ kept `sublist_of` prev)
  /\ (Forall (fun p => strict_eq (opt_get p "_id") id = false) prev ->
      without id prev = Some prev).
Proof.
  intros Hok. split.
  - eexists. split; [apply without_spec; exact Hok |]. split.
    + rewrite without_spec.
      * f_equal. induction prev as [| p prev IH]; simpl; [reflexivity |].
        apply Forall_inv_tail in Hok as Htail.
        destruct (negb (strict_eq (opt_get p "_id") id)) eqn:Hp; simpl.
        -- rewrite Hp, IH by exact Htail. reflexivity.
        -- apply IH. exact Htail.
      * apply List.Forall_forall. intros p Hp. apply List.filter_In in Hp.
        destruct Hp as [Hp _]. rewrite List.Forall_forall in Hok. apply Hok, Hp.
    + apply FilterProperties.filter_sublist.
  - intros Habsent. rewrite without_spec by exact Hok. f_equal.
    apply ExportMoreProperties.filter_all_in. intros p Hp.
    rewrite List.Forall_forall in Habsent. rewrite (Habsent p Hp). reflexivity.
Qed.

Lemma delete_twice_or_absent_witness :
  Forall (fun p => nullish p = false)
    [JObj [("_id", JStr "p1")]; JObj [("_id", JStr "p2")]]
  /\ without (JStr "p9") [JObj [("_id", JStr "p1")]; JObj [("_id", JStr "p2")]]
     = Some [JObj [("_id", JStr "p1")]; JObj [("_id", JStr "p2")]].
Proof.
  assert (Hok : Forall (fun p => nullish p = false)
                  [JObj [("_id", JStr "p1")]; JObj [("_id", JStr "p2")]]).
  { repeat constructor. }
  split; [exact Hok |].
  apply (delete_twice_or_absent (JStr "p9") _ Hok). repeat constructor.
Defined.

Lemma extractList_result (resData : jsval) :
  extractList resData = inl (accepted_shape resData).
Proof.
  unfold extractList, accepted_shape.
  destruct (truthy resData) eqn:Ht; cbn [negb].
  2:{ rewrite AllPropertyProperties.falsy_positions by assumption. reflexivity. }
  destruct resData as [| | b | n | s | l | ps]; simpl in *; try discriminate;
    try reflexivity.
  change (opt_get (JObj ps) "data") with (assoc "data" ps).
  change (opt_get (JObj ps) "properties") with (assoc "properties" ps).
  change (opt_get (JObj ps) "success") with (assoc "success" ps).
  repeat match goal with
         | |- context [match as_array ?v with _ => _ end] =>
             destruct (as_array v); try reflexivity
         end.
Qed.

(** X25. Publishing or unpublishing never edits the list itself: when
    the service accepts the action the page fetches the listings again,
    with a request that carries no credential, and the answer to that
    fetch replaces the list by the array found in the payload (or the
    empty list), whatever the action and whatever the list held before.
    A rejected action or a rejected fetch leaves the list as it was.
    The loading flag is lowered whenever a fetch ends. *)
Theorem status_change_refetches
    (VITE_API_BASE_URL status reply data : jsval) (e : js_error) (w : world) :
  let accepted := toggleStatus_settle VITE_API_BASE_URL status (Fulfilled reply) w in
  let rejected := toggleStatus_settle VITE_API_BASE_URL status (Rejected e) w in
  (snd accepted = Some FetchProperties
   /\ properties (fst accepted) = properties w
   /\ network (fst accepted)
      = (network w
           ++ [ {| req_method := GET;
                   req_url := toStr (API_URL VITE_API_BASE_URL) +:+ "/api/properties/list";
                   req_authorization := None |} ])%list)
  /\ (properties (fetchProperties_settle (Fulfilled data) (fst accepted))
        = accepted_shape data
      /\ properties (fetchProperties_settle (Rejected e) (fst accepted)) = properties w
      /\ loading (fetchProperties_settle (Fulfilled data) (fst accepted)) = false
      /\ loading (fetchProperties_settle (Rejected e) (fst accepted)) = false)
  /\ (snd rejected = None
      /\ properties (fst rejected) = properties w
      /\ network (fst rejected) = network w).
Proof.
  cbn zeta. split; [repeat split | split; [| repeat split]].
  unfold fetchProperties_settle.
  rewrite extractList_result. repeat split.
Qed.

(** X26. [resolveImage] never throws on a string: the empty string
    gives the placeholder picture; a string whose lower-case form starts
    with [data:] or [http] is returned as it is; every other string is
    returned behind the API base, with [/uploads/] put in between unless
    the string itself starts with [/uploads]. Every falsy value
    ([undefined], [null], [false], 0, the empty string) gives the
    placeholder. A truthy value that is not a string is returned as it
    is when the lower-case form of its printed text starts with [data:]
    or [http], and makes the function throw otherwise, since it has no
    [startsWith]; it is never put behind the API base. *)
Theorem resolveImage_cases
    (VITE_API_BASE_URL : jsval) (toLowerCase : string -> string)
    (path : string) (img : jsval) :
  let base := toStr (API_URL VITE_API_BASE_URL) in
  let looks_absolute (s : string) :=
    startsWith (toLowerCase s) "data:" || startsWith (toLowerCase s) "http" in
  resolveImage VITE_API_BASE_URL toLowerCase (JStr path)
  = inl (JStr (if String.eqb path "" then placeholder_image
               else if looks_absolute path then path
               else if startsWith path "/uploads" then base +:+ path
               else base +:+ "/uploads/" +:+ path))
  /\ (if truthy img
      then match img with
           | JStr _ => True
           | _ => resolveImage VITE_API_BASE_URL toLowerCase img
                  = if looks_absolute (toStr img) then inl img else inr tt
           end
      else resolveImage VITE_API_BASE_URL toLowerCase img
           = inl (JStr placeholder_image)).
Proof.
  cbn zeta. split.
  - unfold resolveImage.
    change (truthy (JStr path)) with (negb (String.eqb path "")).
    change (toStr (JStr path)) with path.
    destruct (String.eqb path ""); cbn [negb]; [reflexivity |].
    destruct (startsWith (toLowerCase path) "data:"
              || startsWith (toLowerCase path) "http");
      [reflexivity |].
    destruct (startsWith path "/uploads"); reflexivity.
  - unfold resolveImage.
    destruct (truthy img) eqn:Ht; cbn [negb]; [| reflexivity].
    destruct img; try exact I;
      destruct (startsWith _ "data:" || startsWith _ "http"); reflexivity.
Qed.

(** With a lower-casing of the letters A to Z: a number other than 0 and
    a plain object make the function throw, 0 gives the placeholder, an
    upper-case scheme is recognised. *)
Example resolveImage_samples :
  resolveImage Samples.api Samples.lower (JNum 7) = inr tt
  /\ resolveImage Samples.api Samples.lower (JObj []) = inr tt
  /\ resolveImage Samples.api Samples.lower (JNum 0) = inl (JStr placeholder_image)
  /\ resolveImage Samples.api Samples.lower (JStr "HTTP://cdn/x.png")
     = inl (JStr "HTTP://cdn/x.png")
  /\ resolveImage Samples.api Samples.lower (JStr "a.png")
     = inl (JStr "https://api.example/uploads/a.png")
  /\ resolveImage Samples.api Samples.lower (JStr "/uploads/a.png")
     = inl (JStr "https://api.example/uploads/a.png").
Proof. vm_compute. repeat split; reflexivity. Qed.

End ListingProperties.

(* ===================================================================== *)
(** ** Further properties: local guards *)
(* ===================================================================== *)

Module GuardMoreProperties.
Import Vocabulary.

(** X27. The two pages treat a missing id differently. With a token
    present and an id that is [undefined], [null] or empty, the client
    page turns the block action away with a toast and sends nothing,
    while the owner page, which has no such check, sends the request to
    the block endpoint with the id printed into the URL. *)
Theorem missing_id_guard_differs
    (API_URL userId token : jsval) (w : AllClients.world)
    (wo : BuilderVerification.world) :
  truthy userId = false ->
  truthy (AllClients.token w) = true ->
  truthy token = true ->
  AllClients.toggleBlock API_URL userId w
  = (AllClients.notify
       (ToastError (JStr "User ID is missing. Cannot perform action.")) w, None)
  /\ BuilderVerification.toggleBlock API_URL token userId wo
     = (BuilderVerification.send (block_request API_URL token userId) wo,
        Some (BuilderVerification.ToggleBlock userId)).
Proof.
  intros Hid Htok Htok'.
  unfold AllClients.toggleBlock, BuilderVerification.toggleBlock.
  rewrite Hid, Htok'. split; reflexivity.
Qed.

Lemma missing_id_guard_differs_witness :
  truthy JUndefined = false
  /\ truthy (AllClients.token (AllClients.now Samples.loaded)) = true
  /\ truthy (JStr "tok") = true
  /\ req_url (block_request Samples.api (JStr "tok") JUndefined)
     = "https://api.example/api/users/block/undefined"
  /\ BuilderVerification.toggleBlock Samples.api (JStr "tok") JUndefined
       Samples.owners_world
     = (BuilderVerification.send
          (block_request Samples.api (JStr "tok") JUndefined) Samples.owners_world,
        Some (BuilderVerification.ToggleBlock JUndefined)).
Proof.
  split; [reflexivity |]. split; [reflexivity |]. split; [reflexivity |].
  split; [reflexivity |].
  apply (missing_id_guard_differs Samples.api JUndefined (JStr "tok")
           (AllClients.now Samples.loaded) Samples.owners_world); reflexivity.
Defined.

End GuardMoreProperties.

(* ===================================================================== *)
(** ** Further properties: the owner list and the remaining witnesses *)
(* ===================================================================== *)

Module OwnerProperties.
Import Vocabulary.

Lemma owner_of_response_defined (dates : jsval -> option string) (raw : jsval) :
  nullish raw = false ->
  exists u, BuilderVerification.owner_of_response dates raw = Some u
            /\ BuilderVerification.id u = opt_get raw "id"
            /\ BuilderVerification.isBlocked u = opt_get raw "isBlocked".
Proof.
  destruct raw; try discriminate; intros _;
    (eexists; split; [reflexivity | split; reflexivity]).
Qed.

(** X28. A fulfilled refresh of the owner list whose payload carries a
    [users] array without null elements installs one row per element in
    the payload's order, each with the element's id and its [isBlocked]
    as sent, and the total announced in the success toast is the number
    of rows installed. *)
Theorem owner_refresh_installs_snapshot
    (dates : jsval -> option string) (type_error_message : string)
    (data : jsval) (l : list jsval) (wo : BuilderVerification.world) :
  get data "users" = Some (JArr l) ->
  Forall (fun raw => nullish raw = false) l ->
  let wo' := BuilderVerification.fetchOwners_settle dates type_error_message
               (Fulfilled data) wo in
  List.length (BuilderVerification.users wo') = List.length l
  /\ BuilderVerification.loading wo' = false
  /\ BuilderVerification.toasts wo'
     = (BuilderVerification.toasts wo
          ++ [ToastSuccess
                (JStr ("Owner list synchronized! Total: "
                       +:+ pretty (Z.of_nat
                                     (List.length (BuilderVerification.users wo')))))])%list
  /\ forall (i : nat) (raw : jsval),
       l !! i = Some raw ->
       exists u, BuilderVerification.users wo' !! i = Some u
                 /\ BuilderVerification.id u = opt_get raw "id"
                 /\ BuilderVerification.isBlocked u = opt_get raw "isBlocked".
Proof.
  intros Husers Hl. cbn zeta.
  assert (Hsome : is_Some (mapM (BuilderVerification.owner_of_response dates) l)).
  { apply mapM_is_Some. eapply Forall_impl; [exact Hl |].
    intros raw Hraw.
    destruct (owner_of_response_defined dates raw Hraw) as [u [Hu _]].
    exists u. exact Hu. }
  destruct Hsome as [us Hus].
  unfold BuilderVerification.fetchOwners_settle, BuilderVerification.owners_of_response.
  rewrite Husers. simpl. rewrite Hus. simpl.
  split; [symmetry; apply (length_mapM _ _ _ Hus) |].
  split; [reflexivity |]. split; [reflexivity |].
  intros i raw Hi.
  apply mapM_Some_1 in Hus.
  destruct (Forall2_lookup_l _ _ _ _ _ Hus Hi) as [u [Hu Hraw]].
  exists u. split; [exact Hu |].
  rewrite List.Forall_forall in Hl.
  assert (Hn : nullish raw = false).
  { apply Hl. apply list_elem_of_In. eapply list_elem_of_lookup_2. exact Hi. }
  destruct (owner_of_response_defined dates raw Hn) as [u' [Hu' Hfacts]].
  rewrite Hraw in Hu'. inversion Hu'; subst u'. exact Hfacts.
Qed.

Lemma owner_refresh_installs_snapshot_witness :
  get Samples.list_reply "users" = Some (JArr [Samples.raw_alice; Samples.raw_bob])
  /\ Forall (fun raw => nullish raw = false) [Samples.raw_alice; Samples.raw_bob]
  /\ List.length
       (BuilderVerification.users
          (BuilderVerification.fetchOwners_settle Samples.dates Samples.engine_message
             (Fulfilled Samples.list_reply) Samples.owners_world))
     = 2%nat.
Proof.
  assert (Hl : Forall (fun raw => nullish raw = false)
                 [Samples.raw_alice; Samples.raw_bob]).
  { repeat constructor. }
  split; [reflexivity |]. split; [exact Hl |].
  apply (owner_refresh_installs_snapshot Samples.dates Samples.engine_message
           Samples.list_reply [Samples.raw_alice; Samples.raw_bob]
           Samples.owners_world eq_refl Hl).
Defined.

Lemma guarded_calls_short_circuit_witness :
  truthy (AllClients.token (AllClients.mount ∅)) = false
  /\ truthy JNull = false
  /\ Forall (fun r => snd r = None
                      /\ AllClients.network (fst r) = AllClients.network (AllClients.mount ∅)
                      /\ AllClients.users (fst r) = AllClients.users (AllClients.mount ∅)
                      /\ AllClients.storage (fst r)
                         = AllClients.storage (AllClients.mount ∅))
       [ AllClients.fetchUsers Samples.api (AllClients.mount ∅);
         AllClients.toggleBlock Samples.api (JStr "u1") (AllClients.mount ∅) ].
Proof.
  split; [reflexivity |]. split; [reflexivity |].
  apply (TokenGuardProperties.guarded_calls_short_circuit Samples.api (JStr "u1")
           JNull (AllClients.mount ∅) Samples.owners_world); reflexivity.
Defined.

Lemma drawer_follows_without_overlap_witness :
  nullish Samples.blocked_reply = false
  /\ AllClients.selectedUser
       (AllClients.toggleBlock_settle Samples.engine_message (JStr "u1")
          (Some Samples.alice) (Fulfilled Samples.blocked_reply)
          (AllClients.openDrawer Samples.alice (AllClients.now Samples.loaded)))
     = Some (AllClients.with_status Samples.alice (JStr "Blocked")).
Proof.
  split; [reflexivity |].
  apply (DrawerProperties.drawer_follows_without_overlap Samples.engine_message
           (JStr "u1") Samples.blocked_reply
           (AllClients.openDrawer Samples.alice (AllClients.now Samples.loaded))).
  reflexivity.
Defined.

End OwnerProperties.
